(** * The 4P-medicine research tool: fetch, classify, export

    A shallow embedding of the three scripts of the repository
    (search_medical_papers.py, analyze_papers.py, convert_to_csv.py),
    of their entry points and of example.py, and the properties of
    their records, retry loop and reports.

    Python values that travel through JSON are modelled by [json];
    Python dictionaries are association lists in insertion order;
    a Python [str] is a [string] holding its UTF-8 bytes.  Exceptions
    are explicit results, and the stateful parts run in a small
    state-and-exception monad over a store of record objects. *)

From stdpp Require Import base option list strings pretty sorting.
From Stdlib Require Import ZArith QArith Lqa Ascii.

Set Warnings "-register-all".
Open Scope string_scope.
Open Scope list_scope.
Open Scope Z_scope.

(** ** JSON values, as [json.load] and [json.loads] produce them

    A number with a fraction or an exponent is a Python float; it is
    modelled by its value, a rational.  The values Infinity and NaN,
    which [json.loads] also accepts, are left out. *)

Inductive json : Type :=
| JNull
| JBool (b : bool)
| JInt (z : Z)
| JFloat (q : Q)
| JStr (s : string)
| JArr (l : list json)
| JObj (kv : list (string * json)).

Definition dict : Type := list (string * json).

(** Python exceptions that the scripts can meet.  [FuelExhausted] is
    the model's own and is shown never to occur; [Unmodelled] marks a
    run that leaves the fragment of Python modelled here (the ordering
    of impact scores that are not numbers). *)
Inductive exn : Type :=
| KeyError (k : string)
| TypeError
| AttributeError
| IndexError
| NameError (name : string)
| JSONDecodeError
| RequestException
| FuelExhausted
| Unmodelled.

Inductive res (A : Type) : Type :=
| Ok (a : A)
| Raise (e : exn).
Arguments Ok {A} a.
Arguments Raise {A} e.

Definition res_bind {A B} (r : res A) (k : A -> res B) : res B :=
  match r with Ok a => k a | Raise e => Raise e end.

Definition of_option {A} (e : exn) (o : option A) : res A :=
  match o with Some a => Ok a | None => Raise e end.

(** ** Strings *)

Definition str_empty (s : string) : bool :=
  match s with EmptyString => true | String _ _ => false end.

(** [needle in s] on two strings. *)
Fixpoint str_contains (needle s : string) : bool :=
  String.prefix needle s ||
  match s with
  | EmptyString => false
  | String _ r => str_contains needle r
  end.

(** [s.split(sep)] for a non-empty separator: pieces between the
    left-to-right, non-overlapping occurrences of [sep]. *)
Fixpoint split_go (sep : string) (skip : nat) (cur s : string) : list string :=
  match s with
  | EmptyString => [cur]
  | String a r =>
      match skip with
      | S k => split_go sep k cur r
      | O =>
          if String.prefix sep s
          then cur :: split_go sep (String.length sep - 1) EmptyString r
          else split_go sep 0 (cur +:+ String a EmptyString) r
      end
  end.

Definition py_split (sep s : string) : list string := split_go sep 0 EmptyString s.

Definition byte_of (a : ascii) : nat := nat_of_ascii a.

(** Bytes that are whitespace for [str.strip] in the ASCII range:
    U+0009..U+000D, U+001C..U+001F and the space. *)
Definition ascii_space (a : ascii) : bool :=
  let n := byte_of a in
  ((9 <=? n) && (n <=? 13) || (28 <=? n) && (n <=? 32))%nat.

(** The rest of [s] after one leading whitespace code point, if [s]
    starts with one.  Beyond ASCII these are U+0085, U+00A0, U+1680,
    U+2000..U+200A, U+2028, U+2029, U+202F, U+205F and U+3000, in
    their UTF-8 encodings. *)
Definition ws_tail (s : string) : option string :=
  match s with
  | EmptyString => None
  | String a r =>
      if ascii_space a then Some r
      else
        match r with
        | String b r1 =>
            if ((byte_of a =? 194) && ((byte_of b =? 133) || (byte_of b =? 160)))%nat
            then Some r1
            else
              match r1 with
              | String c r2 =>
                  let x := byte_of a in
                  let y := byte_of b in
                  let z := byte_of c in
                  if ((x =? 225) && (y =? 154) && (z =? 128)
                      || (x =? 226) && (y =? 128)
                         && ((128 <=? z) && (z <=? 138) || (z =? 168) || (z =? 169) || (z =? 175))
                      || (x =? 226) && (y =? 129) && (z =? 159)
                      || (x =? 227) && (y =? 128) && (z =? 128))%nat
                  then Some r2
                  else None
              | EmptyString => None
              end
        | EmptyString => None
        end
  end.

Fixpoint lstrip_go (fuel : nat) (s : string) : string :=
  match fuel with
  | O => s
  | S k => match ws_tail s with Some r => lstrip_go k r | None => s end
  end.

(** [s.lstrip()]: the loop runs at most once per byte. *)
Definition lstrip (s : string) : string := lstrip_go (String.length s) s.

(** The string consists of whitespace code points only (or is empty). *)
Definition blank (s : string) : bool := str_empty (lstrip s).

(** [s.rstrip()]: cut where the remainder is whitespace only. *)
Fixpoint rstrip (s : string) : string :=
  match s with
  | EmptyString => EmptyString
  | String a r => if blank s then EmptyString else String a (rstrip r)
  end.

(** [s.strip()]. *)
Definition py_strip (s : string) : string := rstrip (lstrip s).

(** Number of bytes of the UTF-8 code point that starts with byte [a]. *)
Definition utf8_width (a : ascii) : nat :=
  let n := byte_of a in
  (if n <? 192 then 1 else if n <? 224 then 2 else if n <? 240 then 3 else 4)%nat.

Fixpoint str_take (n : nat) (s : string) : string :=
  match n, s with
  | S k, String a r => String a (str_take k r)
  | _, _ => EmptyString
  end.

(** The characters of a string, as iteration over a [str] yields them. *)
Fixpoint chars_go (skip : nat) (s : string) : list string :=
  match s with
  | EmptyString => []
  | String a r =>
      match skip with
      | S k => chars_go k r
      | O => str_take (utf8_width a) s :: chars_go (utf8_width a - 1) r
      end
  end.

Definition py_chars (s : string) : list string := chars_go 0 s.

(** [sep.join(parts)] on strings. *)
Fixpoint py_join (sep : string) (parts : list string) : string :=
  match parts with
  | [] => EmptyString
  | [p] => p
  | p :: rest => p +:+ sep +:+ py_join sep rest
  end.

(** ** Python operations on JSON values *)

(** Truth value of a value, as [if v:] and [not v] take it. *)
Definition truthy (v : json) : bool :=
  match v with
  | JNull => false
  | JBool b => b
  | JInt z => negb (z =? 0)
  | JFloat q => negb (Qeq_bool q 0)
  | JStr s => negb (str_empty s)
  | JArr l => match l with [] => false | _ => true end
  | JObj kv => match kv with [] => false | _ => true end
  end.

Fixpoint dget (k : string) (d : dict) : option json :=
  match d with
  | [] => None
  | (k', v) :: r => if String.eqb k k' then Some v else dget k r
  end.

(** [d[k] = v]: an existing key keeps its place. *)
Fixpoint dset (k : string) (v : json) (d : dict) : dict :=
  match d with
  | [] => [(k, v)]
  | (k', v') :: r => if String.eqb k k' then (k', v) :: r else (k', v') :: dset k v r
  end.

Definition dmem (k : string) (d : dict) : bool :=
  match dget k d with Some _ => true | None => false end.

(** [d.get(k, default)]. *)
Definition dget_default (k : string) (default : json) (d : dict) : json :=
  match dget k d with Some v => v | None => default end.

Definition is_jstr (needle : string) (v : json) : bool :=
  match v with JStr s => String.eqb needle s | _ => false end.

(** [needle in v] for a string [needle]: a key of a dictionary, an
    element of a list, a substring of a string; TypeError otherwise. *)
Definition py_contains (needle : string) (v : json) : res bool :=
  match v with
  | JObj kv => Ok (dmem needle kv)
  | JArr l => Ok (existsb (is_jstr needle) l)
  | JStr s => Ok (str_contains needle s)
  | _ => Raise TypeError
  end.

(** [v[k]] for a string key [k]. *)
Definition py_getitem (v : json) (k : string) : res json :=
  match v with
  | JObj kv => of_option (KeyError k) (dget k kv)
  | _ => Raise TypeError
  end.

(** [len(v)]. *)
Definition py_len (v : json) : res nat :=
  match v with
  | JArr l => Ok (length l)
  | JObj kv => Ok (length kv)
  | JStr s => Ok (length (py_chars s))
  | _ => Raise TypeError
  end.

(** [v[0]]. The keys of a JSON object are strings, never [0]. *)
Definition py_first (v : json) : res json :=
  match v with
  | JArr l => of_option IndexError (head l)
  | JStr s => of_option IndexError (JStr <$> head (py_chars s))
  | JObj _ => Raise (KeyError "0")
  | _ => Raise TypeError
  end.

(** The items a [for] loop or comprehension over [v] visits. *)
Definition py_iter (v : json) : res (list json) :=
  match v with
  | JArr l => Ok l
  | JStr s => Ok (JStr <$> py_chars s)
  | JObj kv => Ok ((fun p => JStr (fst p)) <$> kv)
  | _ => Raise TypeError
  end.

(** [l[:n]] with Python's reading of a negative bound. *)
Definition py_slice_to {A} (n : Z) (l : list A) : list A :=
  if 0 <=? n then take (Z.to_nat n) l
  else take (Z.to_nat (Z.of_nat (length l) + n)) l.

(** ** Effects: a store of record objects, the requests sent, the files written *)

Inductive file_name : Type :=
| PubmedResponseXml                     (* pubmed_response.xml *)
| MedicalPapersGroup (group : string)   (* medical_papers_<group>_<date>.json *)
| MedicalPapersJournal (j : string)     (* medical_papers_<journal, simplified>_<date>.json *)
| MedicalPapersCustom (count : nat)     (* medical_papers_custom_<count>_journals_<date>.json *)
| AnalysisJson                          (* 4p_analysis_gemini_<date>.json *)
| MarkdownReport                        (* 4p_medicine_papers_<date>.md *)
| CsvFile (name : string).

Inductive content : Type :=
| Text (s : string)
| Records (l : list json)
| Chunks (l : list string)
| Rows (l : list (list json)).

Inductive event : Type :=
| Fetched (endpoint : string)            (* requests.get to E-utilities *)
| Post (paper : json) (attempt : nat)    (* requests.post of the prompt of a paper *)
| Written (f : file_name) (c : content).

(** Addresses of dictionary objects: indices into the store. *)
Definition loc : Type := nat.

Record world : Type := World {
  heap : list json;
  sent : nat;
  trace : list event
}.

Definition M (A : Type) : Type := world -> res A * world.

Definition ret {A} (a : A) : M A := fun w => (Ok a, w).
Definition raise {A} (e : exn) : M A := fun w => (Raise e, w).
Definition bind {A B} (m : M A) (k : A -> M B) : M B :=
  fun w => match m w with
           | (Ok a, w') => k a w'
           | (Raise e, w') => (Raise e, w')
           end.
Definition lift {A} (r : res A) : M A := fun w => (r, w).

Declare Scope m_scope.
Delimit Scope m_scope with M.
Notation "x <- m ;; k" := (bind m (fun x => k))
  (at level 100, m at next level, right associativity) : m_scope.
Notation "m ;;; k" := (bind m (fun _ => k))
  (at level 100, right associativity) : m_scope.
Notation "x <~ r ;; k" := (res_bind r (fun x => k))
  (at level 100, r at next level, right associativity) : m_scope.
Open Scope m_scope.

(** A new object holding [v]. *)
Definition alloc (v : json) : M loc :=
  fun w => (Ok (length (heap w)),
            World (heap w ++ [v]) (sent w) (trace w)).

(** The object at an address. *)
Definition load (l : loc) : M json :=
  fun w => (of_option IndexError (heap w !! l), w).

(** In-place change of the object at an address. *)
Definition update (l : loc) (f : json -> json) : M unit :=
  fun w => (Ok tt, World (alter f l (heap w)) (sent w) (trace w)).

Definition emit (e : event) : M unit :=
  fun w => (Ok tt, World (heap w) (sent w) (trace w ++ [e])).

Fixpoint mmap {A B} (f : A -> M B) (l : list A) : M (list B) :=
  match l with
  | [] => ret []
  | a :: r => b <- f a ;; bs <- mmap f r ;; ret (b :: bs)
  end.

Fixpoint mfilter {A} (f : A -> M bool) (l : list A) : M (list A) :=
  match l with
  | [] => ret []
  | a :: r => b <- f a ;; rs <- mfilter f r ;; ret (if b then a :: rs else rs)
  end.

Fixpoint mfold {A B} (f : B -> A -> M B) (acc : B) (l : list A) : M B :=
  match l with
  | [] => ret acc
  | a :: r => acc' <- f acc a ;; mfold f acc' r
  end.

Fixpoint res_map {A B} (f : A -> res B) (l : list A) : res (list B) :=
  match l with
  | [] => Ok []
  | a :: r => b <~ f a ;; bs <~ res_map f r ;; Ok (b :: bs)
  end.

(** A comprehension [[x for x in l if f(x)]] whose test may raise. *)
Fixpoint res_filter {A} (f : A -> res bool) (l : list A) : res (list A) :=
  match l with
  | [] => Ok []
  | a :: r => b <~ f a ;; rs <~ res_filter f r ;; Ok (if b then a :: rs else rs)
  end.

Definition empty_world : world := World [] 0 [].

(** ** search_medical_papers.py *)

(** An [xml.etree.ElementTree] element: tag, attributes, the text
    before its first child ([None] when there is none) and children. *)
Inductive element : Type :=
| Element (tag : string) (attrib : list (string * string))
          (text : option string) (children : list element).

Definition el_tag (e : element) : string := let 'Element t _ _ _ := e in t.
Definition el_attrib (e : element) : list (string * string) := let 'Element _ a _ _ := e in a.
Definition el_text (e : element) : option string := let 'Element _ _ x _ := e in x.
Definition el_children (e : element) : list element := let 'Element _ _ _ c := e in c.

Definition children_named (t : string) (e : element) : list element :=
  List.filter (fun c => String.eqb (el_tag c) t) (el_children e).

(** [e.findall('./t1/t2/...')]. *)
Fixpoint findall (path : list string) (e : element) : list element :=
  match path with
  | [] => [e]
  | t :: rest => List.flat_map (findall rest) (children_named t e)
  end.

(** [e.find('./t1/t2/...')]. *)
Definition find (path : list string) (e : element) : option element :=
  head (findall path e).

(** All elements below [e], in document order. *)
Fixpoint descendants (e : element) : list element :=
  match e with
  | Element _ _ _ cs =>
      (fix go (l : list element) : list element :=
         match l with
         | [] => []
         | c :: r => c :: descendants c ++ go r
         end) cs
  end.

(** [e.findall('.//t')]. *)
Definition findall_deep (t : string) (e : element) : list element :=
  List.filter (fun c => String.eqb (el_tag c) t) (descendants e).

(** [e.get(name)] on the attributes. *)
Fixpoint attr_get (name : string) (a : list (string * string)) : option string :=
  match a with
  | [] => None
  | (k, v) :: r => if String.eqb name k then Some v else attr_get name r
  end.

(** [x.text if x is not None else ''], a [str] or [None]. *)
Definition text_of (x : option element) : option string :=
  match x with
  | Some e => el_text e
  | None => Some EmptyString
  end.

(** An optional [str] as a JSON value, and inside an f-string. *)
Definition json_of_text (t : option string) : json :=
  match t with Some s => JStr s | None => JNull end.
Definition fmt_text (t : option string) : string :=
  match t with Some s => s | None => "None" end.

(** One part of the abstract, lines 147 to 153. *)
Definition abstract_part (abstract_text : element) : string :=
  let label := attr_get "Label" (el_attrib abstract_text) in
  let text := match el_text abstract_text with
              | Some s => s
              | None => EmptyString
              end in
  match label with
  | Some l => if str_empty l then text else l +:+ ": " +:+ text
  | None => text
  end.

(** The body of the loop over PubmedArticle elements, lines 94 to 167:
    [None] where the loop continues without a record. *)
Definition process_article (article : element) : option dict :=
  match find ["MedlineCitation"] article with
  | None => None
  | Some medline_citation =>
      match find ["Article"] medline_citation with
      | None => None
      | Some article_data =>
          let pmid := text_of (find ["PMID"] medline_citation) in
          let title := text_of (find ["ArticleTitle"] article_data) in
          let journal := text_of (find ["Journal"; "Title"] article_data) in
          let paper : dict :=
            [("pubmed_id", json_of_text pmid);
             ("title", json_of_text title);
             ("journal", json_of_text journal);
             ("publication_date", JStr EmptyString);
             ("abstract", JStr EmptyString);
             ("url", JStr ("https://pubmed.ncbi.nlm.nih.gov/" +:+ fmt_text pmid +:+ "/"))] in
          let paper :=
            match find ["Journal"; "JournalIssue"; "PubDate"] article_data with
            | Some pub_date =>
                let year := text_of (find ["Year"] pub_date) in
                let month := text_of (find ["Month"] pub_date) in
                let day := text_of (find ["Day"] pub_date) in
                dset "publication_date"
                  (JStr (py_strip (fmt_text year +:+ " " +:+ fmt_text month
                                   +:+ " " +:+ fmt_text day))) paper
            | None => paper
            end in
          let paper :=
            match find ["Abstract"] article_data with
            | Some abstract_elem =>
                let abstract_parts := abstract_part <$> findall ["AbstractText"] abstract_elem in
                dset "abstract" (JStr (py_join " " abstract_parts)) paper
            | None => paper
            end in
          let pub_types :=
            match find ["PublicationTypeList"] article_data with
            | Some pub_type_list =>
                (fun pub_type => json_of_text (el_text pub_type))
                  <$> findall ["PublicationType"] pub_type_list
            | None => []
            end in
          Some (dset "publication_types" (JArr pub_types) paper)
      end
  end.

Definition DEFAULT_JOURNALS : list string :=
  ["Lancet"; "The New England journal of medicine"].

(** The name of the file of the save step, lines 174 to 188. *)
Definition save_name (group_name : string) (journals : list string) : file_name :=
  if negb (String.eqb group_name "custom") then MedicalPapersGroup group_name
  else
    match journals with
    | [j] => MedicalPapersJournal j
    | _ => MedicalPapersCustom (length journals)
    end.

Definition all_str (l : list json) : bool :=
  forallb (fun v => match v with JStr _ => true | _ => false end) l.

(** [sep.join(v)] raises TypeError unless [v] yields strings only. *)
Definition joinable (v : json) : res unit :=
  items <~ py_iter v ;;
  if all_str items then Ok tt else Raise TypeError.

Section Search.

(** [ET.fromstring]: [None] stands for ParseError. *)
Variable fromstring : string -> option element.

(** The module global [group_name], which only the [__main__] block
    of the script assigns. *)
Variable group_name : option string.

(** What the two E-utilities requests deliver: the decoded body of
    esearch and the text of efetch, or the exception of the call. *)
Variable esearch : res json.
Variable efetch : res string.

(** Lines 36 to 86: the tree to process, or the early [return []]. *)
Definition fetch_root : M (option element) :=
  emit (Fetched "esearch.fcgi") ;;;
  search_data <- lift esearch ;;
  result <- lift (py_getitem search_data "esearchresult") ;;
  id_list <- lift (py_getitem result "idlist") ;;
  if negb (truthy id_list) then ret None
  else
    _ <- lift (py_len id_list) ;;
    _ <- lift (joinable id_list) ;;
    emit (Fetched "efetch.fcgi") ;;;
    text <- lift efetch ;;
    emit (Written PubmedResponseXml (Text text)) ;;;
    if str_empty (py_strip text) then ret None
    else ret (fromstring text).

(** Lines 172 to 199: the save step and the return. *)
Definition save_papers (journals : list string) (papers : list json) : M (list json) :=
  match group_name with
  | None => raise (NameError "group_name")
  | Some g =>
      emit (Written (save_name g journals) (Records papers)) ;;;
      ret papers
  end.

Definition search_medical_papers (journals : option (list string)) : M (list json) :=
  let journals := match journals with Some js => js | None => DEFAULT_JOURNALS end in
  root <- fetch_root ;;
  match root with
  | None => ret []
  | Some root =>
      let papers := JObj <$> omap process_article (findall_deep "PubmedArticle" root) in
      save_papers journals papers
  end.

End Search.

(** ** convert_to_csv.py *)

Definition CSV_FIELDS : list string :=
  ["pubmed_id"; "title"; "journal"; "publication_date"; "url";
   "authors"; "abstract"; "publication_types"].

Definition as_str (v : json) : res string :=
  match v with JStr s => Ok s | _ => Raise TypeError end.

(** ['; '.join(paper.get(k, []))]. *)
Definition join_field (k : string) (paper : dict) : res string :=
  items <~ py_iter (dget_default k (JArr []) paper) ;;
  strs <~ res_map as_str items ;;
  Ok (py_join "; " strs).

(** The list [row] of lines 38 to 47. *)
Definition csv_row (paper : json) : res (list json) :=
  match paper with
  | JObj d =>
      authors <~ join_field "authors" d ;;
      publication_types <~ join_field "publication_types" d ;;
      Ok [dget_default "pubmed_id" (JStr EmptyString) d;
          dget_default "title" (JStr EmptyString) d;
          dget_default "journal" (JStr EmptyString) d;
          dget_default "publication_date" (JStr EmptyString) d;
          dget_default "url" (JStr EmptyString) d;
          JStr authors;
          dget_default "abstract" (JStr EmptyString) d;
          JStr publication_types]
  | _ => Raise AttributeError
  end.

(** The rows written before the loop ends or raises. *)
Fixpoint csv_rows (papers : list json) : list (list json) * option exn :=
  match papers with
  | [] => ([], None)
  | paper :: rest =>
      match csv_row paper with
      | Raise e => ([], Some e)
      | Ok row => let '(rows, e) := csv_rows rest in (row :: rows, e)
      end
  end.

Definition reraise (e : option exn) : M unit :=
  match e with Some x => raise x | None => ret tt end.

(** [convert_json_to_csv], from the value that [json.load] gives.  The
    loaded items are objects of the store; the loop reads them. *)
Definition convert_json_to_csv (loaded : json) (csv_file : string) : M unit :=
  if negb (truthy loaded) then ret tt
  else
    match py_iter loaded with
    | Raise e =>
        emit (Written (CsvFile csv_file) (Rows [JStr <$> CSV_FIELDS])) ;;;
        raise e
    | Ok items =>
        papers <- mmap alloc items ;;
        read <- mmap load papers ;;
        let '(rows, e) := csv_rows read in
        emit (Written (CsvFile csv_file) (Rows ((JStr <$> CSV_FIELDS) :: rows))) ;;;
        reraise e
    end.

(** ** analyze_papers.py *)

Definition nl : string := String (ascii_of_nat 10) EmptyString.

(** What one [requests.post] delivers: a timeout, another
    RequestException, or a response with its status code and what
    [response.json()] gives. *)
Inductive attempt : Type :=
| Timeout
| RequestError
| Response (status_code : Z) (body : res json).

Definition max_retries : nat := 3.

(** [title[:50]] needs a sequence. *)
Definition sliceable (v : json) : res unit :=
  match v with
  | JStr _ | JArr _ => Ok tt
  | _ => Raise TypeError
  end.

(** The test of the comprehension of line 45: [p['abstract'].strip()]. *)
Definition has_abstract (p : json) : res bool :=
  a <~ py_getitem p "abstract" ;;
  match a with
  | JStr s => Ok (negb (str_empty (py_strip s)))
  | _ => Raise AttributeError
  end.

(** Lines 159 to 162: the text of the first candidate; [Ok None] is
    one of the two branches that report an unexpected format. *)
Definition extract_text (response_data : json) : res (option json) :=
  c <~ py_contains "candidates" response_data ;;
  if c then
    candidates <~ py_getitem response_data "candidates" ;;
    n <~ py_len candidates ;;
    if (0 <? n)%nat then
      candidate <~ py_first candidates ;;
      c1 <~ py_contains "content" candidate ;;
      if c1 then
        content <~ py_getitem candidate "content" ;;
        c2 <~ py_contains "parts" content ;;
        if c2 then
          parts <~ py_getitem content "parts" ;;
          part <~ py_first parts ;;
          t <~ py_getitem part "text" ;;
          Ok (Some t)
        else Ok None
      else Ok None
    else Ok None
  else Ok None.

(** Lines 168 to 173: the JSON text inside the answer. *)
Definition json_str_of (llm_response : string) : res string :=
  if str_contains "```json" llm_response then
    after <~ of_option IndexError (py_split "```json" llm_response !! 1%nat) ;;
    inside <~ of_option IndexError (head (py_split "```" after)) ;;
    Ok (py_strip inside)
  else if str_contains "```" llm_response then
    inside <~ of_option IndexError (py_split "```" llm_response !! 1%nat) ;;
    Ok (py_strip inside)
  else Ok llm_response.

(** Lines 178 to 184: the dictionary stored under ['paper']. *)
Definition paper_info (paper : json) : res json :=
  pubmed_id <~ py_getitem paper "pubmed_id" ;;
  title <~ py_getitem paper "title" ;;
  url <~ py_getitem paper "url" ;;
  journal <~ py_getitem paper "journal" ;;
  publication_date <~ py_getitem paper "publication_date" ;;
  Ok (JObj [("pubmed_id", pubmed_id); ("title", title); ("url", url);
            ("journal", journal); ("publication_date", publication_date)]).

(** [if k not in analysis: analysis[k] = v]. *)
Definition ensure (k : string) (v : json) (d : dict) : dict :=
  if dmem k d then d else dset k v d.

(** Lines 187 to 198. *)
Definition ensure_fields (d : dict) : dict :=
  ensure "impact_score" (JInt 0)
    (ensure "revolutionary_aspects" JNull
       (ensure "summary" (JStr EmptyString)
          (ensure "is_large_trial" (JBool false)
             (ensure "aspects" (JArr [])
                (ensure "is_relevant" (JBool false) d))))).

(** Lines 178 to 198 as a change of the object bound to [analysis]:
    a KeyError of the paper or a TypeError of the item assignment is
    caught at line 202 and leaves the object as [json.loads] gave it. *)
Definition annotate (paper : json) (analysis : json) : json :=
  match paper_info paper with
  | Raise _ => analysis
  | Ok info =>
      match analysis with
      | JObj d => JObj (ensure_fields (dset "paper" info d))
      | _ => analysis
      end
  end.

(** The test of the comprehension of line 222. *)
Definition is_relevant (p : json) : res bool :=
  match p with
  | JObj d => Ok (truthy (dget_default "is_relevant" (JBool false) d))
  | _ => Raise AttributeError
  end.

Definition sort_key : Type := json * Z * Z.

Definition flag (b : bool) : Z := if b then 1 else 0.

(** Lines 231 to 235. *)
Definition paper_sort_key (paper : json) : res sort_key :=
  match paper with
  | JObj d =>
      Ok (dget_default "impact_score" (JInt 0) d,
          flag (truthy (dget_default "revolutionary_aspects" JNull d)),
          flag (truthy (dget_default "is_large_trial" (JBool false) d)))
  | _ => Raise AttributeError
  end.

(** An impact score that Python orders as a number: an integer, a
    boolean (0 or 1) or a float. *)
Definition num_score (v : json) : option Q :=
  match v with
  | JInt z => Some (inject_Z z)
  | JBool b => Some (inject_Z (flag b))
  | JFloat q => Some q
  | _ => None
  end.

Definition num_key (k : sort_key) : option (Q * Z * Z) :=
  let '(s, r, t) := k in
  match num_score s with Some q => Some (q, r, t) | None => None end.

Definition num_ltb (a b : Q) : bool :=
  match (a ?= b)%Q with Lt => true | _ => false end.

(** Tuple comparison [a < b]: the first components that differ decide. *)
Definition key_ltb (a b : Q * Z * Z) : bool :=
  let '(a1, a2, a3) := a in
  let '(b1, b2, b3) := b in
  num_ltb a1 b1 || (Qeq_bool a1 b1 && ((a2 <? b2) || ((a2 =? b2) && (a3 <? b3)))).

Section Sort.
Context {A : Type}.

(** Insertion in front of the first item with a key not above. *)
Fixpoint insert_desc (x : A * (Q * Z * Z)) (l : list (A * (Q * Z * Z)))
  : list (A * (Q * Z * Z)) :=
  match l with
  | [] => [x]
  | y :: r => if key_ltb (snd x) (snd y) then y :: insert_desc x r else x :: y :: r
  end.

(** The stable sort in descending order of the keys. *)
Definition sort_desc (l : list (A * (Q * Z * Z))) : list (A * (Q * Z * Z)) :=
  foldr insert_desc [] l.

Definition with_num_key (x : A * sort_key) : option (A * (Q * Z * Z)) :=
  match num_key (snd x) with Some k => Some (fst x, k) | None => None end.

(** [l.sort(key=..., reverse=True)] on items with their keys.  With
    fewer than two items no comparison is made; with scores that are
    numbers the keys are ordered as tuples of numbers and equal keys
    keep their order. Other scores (strings, None, mixed types) are
    outside the model. *)
Definition py_sort_reverse (l : list (A * sort_key)) : res (list A) :=
  match l with
  | [] | [_] => Ok (fst <$> l)
  | _ =>
      match mapM with_num_key l with
      | Some keyed => Ok (fst <$> sort_desc keyed)
      | None => Raise Unmodelled
      end
  end.
End Sort.

Section Analyze.

(** [json.loads]; [None] stands for JSONDecodeError. *)
Variable json_loads : string -> option json.

(** The text of a value inside an f-string, Python's [format]. *)
Variable py_str : json -> string.

(** [datetime.now().strftime(fmt)]. *)
Variable strftime : string -> string.

(** The model API: what the n-th [requests.post] of the run delivers. *)
Variable net : nat -> attempt.

Definition post (paper : json) (attempt_no : nat) : M attempt :=
  fun w => (Ok (net (sent w)),
            World (heap w) (S (sent w)) (trace w ++ [Post paper attempt_no])).

(** The [while] loop of lines 104 to 150.  [fuel] bounds the number
    of iterations for the recursion only. *)
Fixpoint request_loop (fuel : nat) (paper : json) (retry_count : nat)
    (success : bool) (response : option (Z * res json))
  : M (bool * option (Z * res json)) :=
  if (retry_count <? max_retries)%nat && negb success then
    match fuel with
    | O => raise FuelExhausted
    | S fuel =>
        a <- post paper (S retry_count) ;;
        match a with
        | Response status_code body =>
            let response := Some (status_code, body) in
            if status_code =? 200
            then request_loop fuel paper retry_count true response
            else
              let retry_count := S retry_count in
              if (max_retries <=? retry_count)%nat
              then ret (false, response)
              else request_loop fuel paper retry_count false response
        | Timeout => request_loop fuel paper (S retry_count) success response
        | RequestError => request_loop fuel paper (S retry_count) success response
        end
    end
  else ret (success, response).

(** Lines 166 to 175: the value of [json.loads(json_str)].  An answer
    that is not a string raises before [analysis] is assigned. *)
Definition parse_analysis (llm_response : json) : res json :=
  match llm_response with
  | JStr s =>
      json_str <~ json_str_of s ;;
      of_option JSONDecodeError (json_loads json_str)
  | other =>
      c <~ py_contains "```json" other ;;
      if c then Raise AttributeError
      else
        c' <~ py_contains "```" other ;;
        if c' then Raise AttributeError else Raise TypeError
  end.

(** Lines 153 to 210: the object bound to [analysis], if any.  Every
    exception is caught by one of the two [except] clauses. *)
Definition analysis_of (paper : json) (body : res json) : M (option loc) :=
  match (response_data <~ body ;;
         t <~ extract_text response_data ;;
         match t with
         | None => Ok None
         | Some llm_response => v <~ parse_analysis llm_response ;; Ok (Some v)
         end) with
  | Ok (Some JNull) => ret None
  | Ok (Some v) =>
      analysis <- alloc v ;;
      update analysis (annotate paper) ;;;
      ret (Some analysis)
  | Ok None => ret None
  | Raise _ => ret None
  end.

(** The body of the loop over the papers, lines 63 to 214. *)
Definition classify_paper (results : list loc) (paper : json) : M (list loc) :=
  title <- lift (py_getitem paper "title") ;;
  lift (sliceable title) ;;;
  _ <- lift (py_getitem paper "journal") ;;
  _ <- lift (py_getitem paper "publication_date") ;;
  _ <- lift (py_getitem paper "abstract") ;;
  r <- request_loop max_retries paper 0 false None ;;
  analysis <- match r with
              | (true, Some (_, body)) => analysis_of paper body
              | _ => ret None
              end ;;
  ret (match analysis with
       | Some a => (results ++ [a])%list
       | None => results
       end).

(** One line of the table of contents, lines 249 to 251. *)
Definition toc_line (i : nat) (paper : json) : res string :=
  match paper with
  | JObj d =>
      info <~ py_getitem paper "paper" ;;
      title <~ py_getitem info "title" ;;
      aspects <~ py_iter (dget_default "aspects" (JArr []) d) ;;
      let aspects_tags := py_join ", " ((fun a => "[" +:+ py_str a +:+ "]") <$> aspects) in
      Ok (pretty i +:+ ". [" +:+ py_str title +:+ "](#" +:+ pretty i +:+ ") "
          +:+ aspects_tags +:+ nl)
  | _ => Raise AttributeError
  end.

Definition badge (a : json) : string :=
  "![" +:+ py_str a +:+ "](https://img.shields.io/badge/-" +:+ py_str a +:+ "-blue)".

Definition score_chunk (impact_score : json) : string :=
  "**Impact Score:** " +:+ py_str impact_score +:+ "/10  " +:+ nl.

Definition trial_chunk (is_large_trial : json) : string :=
  "**Large Trial/RCT:** " +:+ (if truthy is_large_trial then "Yes" else "No")
    +:+ "  " +:+ nl +:+ nl.

Definition summary_chunk (summary : json) : string :=
  "**Summary:**  " +:+ nl +:+ py_str summary +:+ nl +:+ nl.

Definition badges_chunk (aspects : list json) : string :=
  py_join " " (badge <$> aspects) +:+ nl +:+ nl.

(** The writes of one detailed entry, lines 257 to 280. *)
Definition detail_chunks (i : nat) (paper : json) : res (list string) :=
  match paper with
  | JObj d =>
      info <~ py_getitem paper "paper" ;;
      title <~ py_getitem info "title" ;;
      journal <~ py_getitem info "journal" ;;
      pub_date <~ py_getitem info "publication_date" ;;
      url <~ py_getitem info "url" ;;
      aspects <~ py_iter (dget_default "aspects" (JArr []) d) ;;
      let impact_score := dget_default "impact_score" (JInt 0) d in
      let is_large_trial := dget_default "is_large_trial" (JBool false) d in
      let summary := dget_default "summary" (JStr EmptyString) d in
      let revolutionary := dget_default "revolutionary_aspects" (JStr EmptyString) d in
      Ok ((["<a id='" +:+ pretty i +:+ "'></a>" +:+ nl;
           "### " +:+ pretty i +:+ ". " +:+ py_str title +:+ nl +:+ nl;
           badges_chunk aspects;
           "**Journal:** " +:+ py_str journal +:+ "  " +:+ nl;
           "**Publication Date:** " +:+ py_str pub_date +:+ "  " +:+ nl;
           score_chunk impact_score;
           trial_chunk is_large_trial;
           summary_chunk summary]
          ++ (if truthy revolutionary
              then ["**Revolutionary Aspects:**  " +:+ nl +:+ py_str revolutionary +:+ nl +:+ nl]
              else [])
          ++ ["[View on PubMed](" +:+ py_str url +:+ ")" +:+ nl +:+ nl;
              "---" +:+ nl +:+ nl])%list)
  | _ => Raise AttributeError
  end.

(** The writes of a loop [for i, paper in enumerate(papers, i)],
    up to its end or its exception. *)
Fixpoint write_each {B} (f : nat -> json -> res B) (i : nat) (papers : list json)
  : list B * option exn :=
  match papers with
  | [] => ([], None)
  | paper :: rest =>
      match f i paper with
      | Raise e => ([], Some e)
      | Ok b => let '(bs, e) := write_each f (S i) rest in (b :: bs, e)
      end
  end.

Definition md_header : list string :=
  ["# Top Papers Relevant to 4P Medicine" +:+ nl +:+ nl;
   "*Generated on: " +:+ strftime "%Y-%m-%d" +:+ "*" +:+ nl +:+ nl;
   "This report highlights the most impactful, revolutionary, and exciting papers related to 4P Medicine (Predictive, Preventive, Personalized, and Participatory)."
     +:+ nl +:+ nl;
   "## Table of Contents" +:+ nl +:+ nl].

(** Everything written to the Markdown file, lines 241 to 280, for
    the papers [relevant_papers[:20]]. *)
Definition markdown_report (shown : list json) : list string * option exn :=
  match write_each toc_line 1 shown with
  | (toc, Some e) => ((md_header ++ toc)%list, Some e)
  | (toc, None) =>
      let '(entries, e) := write_each detail_chunks 1 shown in
      ((md_header ++ toc ++ [nl; "## Detailed Paper Reviews" +:+ nl +:+ nl]
          ++ concat entries)%list, e)
  end.

(** The console listing of lines 286 to 293 prints; it raises where
    a lookup or the [join] of line 288 does. *)
Definition console_entry (paper : json) : res unit :=
  match paper with
  | JObj d =>
      info <~ py_getitem paper "paper" ;;
      _ <~ py_getitem info "title" ;;
      _ <~ joinable (dget_default "aspects" (JArr []) d) ;;
      _ <~ py_getitem info "url" ;;
      Ok tt
  | _ => Raise AttributeError
  end.

(** Line 237 on the list of references [relevant_papers]. *)
Definition sort_papers (relevant_papers : list loc) : M (list loc) :=
  keyed <- mmap (fun l => paper <- load l ;;
                          k <- lift (paper_sort_key paper) ;;
                          ret (l, k)) relevant_papers ;;
  lift (py_sort_reverse keyed).

(** Lines 216 to 295, after the loop. *)
Definition report (results : list loc) : M (list loc) :=
  records <- mmap load results ;;
  emit (Written AnalysisJson (Records records)) ;;;
  relevant_papers <- mfilter (fun l => p <- load l ;; lift (is_relevant p)) results ;;
  match relevant_papers with
  | [] => ret results
  | _ =>
      relevant_papers <- sort_papers relevant_papers ;;
      shown <- mmap load (take 20 relevant_papers) ;;
      let '(chunks, e) := markdown_report shown in
      emit (Written MarkdownReport (Chunks chunks)) ;;;
      reraise e ;;;
      top <- mmap load (take 5 relevant_papers) ;;
      lift (res_map console_entry top) ;;;
      ret results
  end.

(** The papers handed to the loop, lines 38 to 57: [None] is one of
    the two early returns. *)
Definition select_papers (papers : json) (max_papers : option Z)
  : res (option (list json)) :=
  if negb (truthy papers) then Ok None
  else
    _ <~ py_len papers ;;
    items <~ py_iter papers ;;
    papers_with_abstracts <~ res_filter has_abstract items ;;
    match papers_with_abstracts with
    | [] => Ok None
    | _ =>
        Ok (Some (match max_papers with
                  | Some n => py_slice_to n papers_with_abstracts
                  | None => papers_with_abstracts
                  end))
    end.

(** [analyze_papers_with_gemini], from the value that [json.load]
    gives for the file; the result lists the objects of [results]. *)
Definition analyze_papers_with_gemini (papers : json) (max_papers : option Z)
  : M (list loc) :=
  selected <- lift (select_papers papers max_papers) ;;
  match selected with
  | None => ret []
  | Some papers_to_analyze =>
      results <- mfold classify_paper [] papers_to_analyze ;;
      report results
  end.

End Analyze.

(** ** Records of the data model *)

Definition ARTICLE_FIELDS : list string :=
  ["pubmed_id"; "title"; "journal"; "publication_date"; "abstract"; "url";
   "publication_types"].

Definition is_str (v : json) : bool :=
  match v with JStr _ => true | _ => false end.

Definition is_str_list (v : json) : bool :=
  match v with JArr l => forallb is_str l | _ => false end.

(** The article of the data model: exactly the seven fields, six
    strings and a sequence of strings. *)
Definition is_article (d : dict) : bool :=
  bool_decide (d.*1 = ARTICLE_FIELDS)
  && forallb (fun k => match dget k d with Some v => is_str v | None => false end)
       ["pubmed_id"; "title"; "journal"; "publication_date"; "abstract"; "url"]
  && match dget "publication_types" d with Some v => is_str_list v | None => false end.

(** The element <PubmedArticle> with PMID 40000001, the journal
    Lancet and a title that opens with markup,
    <ArticleTitle><i>BRCA1</i> carriers</ArticleTitle>: the text of
    that element, before its first child, is [None]. *)
Definition markup_title_article : element :=
  Element "PubmedArticle" [] None
    [Element "MedlineCitation" [] None
       [Element "PMID" [] (Some "40000001") [];
        Element "Article" [] None
          [Element "Journal" [] None
             [Element "JournalIssue" [] None
                [Element "PubDate" [] None
                   [Element "Year" [] (Some "2025") [];
                    Element "Month" [] (Some "Apr") []]];
              Element "Title" [] (Some "Lancet") []];
           Element "ArticleTitle" [] None [Element "i" [] (Some "BRCA1") []];
           Element "Abstract" [] None
             [Element "AbstractText" [("Label", "BACKGROUND")] (Some "Carriers differ.") [];
              Element "AbstractText" [] None []];
           Element "PublicationTypeList" [] None
             [Element "PublicationType" [] (Some "Journal Article") []]]]].

Definition markup_title_set : element :=
  Element "PubmedArticleSet" [] None [markup_title_article].

(** The same article with a plain title. *)
Definition plain_title_set : element :=
  Element "PubmedArticleSet" [] None
    [Element "PubmedArticle" [] None
       [Element "MedlineCitation" [] None
          [Element "PMID" [] (Some "40000002") [];
           Element "Article" [] None
             [Element "Journal" [] None [Element "Title" [] (Some "Lancet") []];
              Element "ArticleTitle" [] (Some "Screening at scale") [];
              Element "Abstract" [] None
                [Element "AbstractText" [] (Some "A trial of screening.") []]]]]].

(** An esearch answer with one identifier. *)
Definition one_id_found : json :=
  JObj [("esearchresult", JObj [("idlist", JArr [JStr "40000001"])])].


(** An article record, as search_medical_papers.py saves it. *)
Definition sample_paper : json :=
  JObj [("pubmed_id", JStr "40000002");
        ("title", JStr "Screening at scale");
        ("journal", JStr "Lancet");
        ("publication_date", JStr "2025 Apr");
        ("abstract", JStr "A trial of screening.");
        ("url", JStr "https://pubmed.ncbi.nlm.nih.gov/40000002/");
        ("publication_types", JArr [JStr "Journal Article"])].

(** A second article. *)
Definition second_paper : json :=
  JObj [("pubmed_id", JStr "40000003");
        ("title", JStr "Risk scores in primary care");
        ("journal", JStr "BMJ");
        ("publication_date", JStr "2025 Mar 3");
        ("abstract", JStr "A cohort study of risk scores.");
        ("url", JStr "https://pubmed.ncbi.nlm.nih.gov/40000003/");
        ("publication_types", JArr [JStr "Journal Article"; JStr "Review"])].



(** The format of the values that the examples print: [None],
    booleans, integers and strings as Python writes them. *)
Definition str_of_scalar (v : json) : string :=
  match v with
  | JNull => "None"
  | JBool b => if b then "True" else "False"
  | JInt z => pretty z
  | JStr s => s
  | _ => "..."
  end.


(** An attempt that makes the loop go on: anything but a response
    with status 200. *)
Definition failed (a : attempt) : bool :=
  match a with
  | Response status_code _ => negb (status_code =? 200)
  | Timeout | RequestError => true
  end.

Definition timed_out (a : attempt) : bool :=
  match a with Timeout => true | _ => false end.

(** The requests of one paper: attempts [first + 1] to [first + n]. *)
Definition posts (paper : json) (first n : nat) : list event :=
  (fun i => Post paper (S (first + i))) <$> seq 0 n.

(** The answer of the model API that carries the text [t]. *)
Definition gemini_answer (t : string) : json :=
  JObj [("candidates",
         JArr [JObj [("content",
                      JObj [("parts", JArr [JObj [("text", JStr t)]]);
                            ("role", JStr "model")])]])].

(** A server error first, then an answer. *)
Definition net_500_then_200 (n : nat) : attempt :=
  match n with
  | O => Response 500 (Raise JSONDecodeError)
  | _ => Response 200 (Ok (gemini_answer "{}"))
  end.

(** The claim that the loop goes on after timeouts only: every
    attempt of a paper but the last one timed out. *)
Definition retries_only_after_timeout : Prop :=
  forall (net : nat -> attempt) (paper : json) (w w' : world) r,
    request_loop net max_retries paper 0 false None w = (r, w') ->
    forall i, (sent w + S i < sent w')%nat -> timed_out (net (sent w + i)%nat) = true.

(** The order of the report on keys: [a] may stand before [b] when
    [a < b] does not hold. *)
Definition key_geq (a b : Q * Z * Z) : Prop := key_ltb a b = false.

(** The order of the report on records: both have a sort key with a
    score that is a number, and the key of the first is not below the
    key of the other. *)
Definition ranked_above (a b : json) : Prop :=
  exists ka kb ia ib,
    paper_sort_key a = Ok ka /\ paper_sort_key b = Ok kb
    /\ num_key ka = Some ia /\ num_key kb = Some ib /\ key_geq ia ib.

Definition pair_geq {A} (x y : A * (Q * Z * Z)) : Prop := key_geq (snd x) (snd y).

(** What a run of the loop from [retry_count] does: [n] requests, all
    failed but possibly the last, which succeeded exactly when the
    loop reports success; without success every allowed attempt was
    made. *)
Definition loop_outcome (net : nat -> attempt) (paper : json) (retry_count : nat)
    (w : world) (n : nat) (success : bool) (response : option (Z * res json))
    (w' : world) : Prop :=
  w' = World (heap w) (sent w + n) (trace w ++ posts paper retry_count n)
  /\ (retry_count + n <= max_retries)%nat
  /\ (forall i, (S i < n)%nat -> failed (net (sent w + i)%nat) = true)
  /\ (success = true ->
      exists m body, n = S m /\ net (sent w + m)%nat = Response 200 body
                     /\ response = Some (200, body))
  /\ (success = false ->
      (retry_count + n = max_retries)%nat
      /\ forall i, (i < n)%nat -> failed (net (sent w + i)%nat) = true).

(** A record that the loop made from one of [papers] and a value of
    [json.loads] other than [None]. *)
Definition produced (json_loads : string -> option json) (papers : list json)
    (record : json) : Prop :=
  exists paper v json_str,
    paper ∈ papers /\ json_loads json_str = Some v /\ v <> JNull
    /\ record = annotate paper v.

(** The requests of a run of the loop over the papers: for each
    paper in turn its attempts. *)
Definition loop_trace (counts : list (json * nat)) : list event :=
  counts ≫= (fun c => posts (fst c) 0 (snd c)).

(** What one iteration of the loop over the papers does. *)
Definition classified (json_loads : string -> option json) (paper : json)
    (results : list loc) (w : world) (r : res (list loc)) (w' : world) : Prop :=
  exists n new,
    w' = World (heap w ++ new) (sent w + n) (trace w ++ posts paper 0 n)
    /\ (n <= 3)%nat
    /\ match r with
       | Raise _ => n = 0%nat /\ new = []
       | Ok results' =>
           (1 <= n)%nat
           /\ (new = [] /\ results' = results
               \/ exists v json_str,
                    json_loads json_str = Some v /\ v <> JNull
                    /\ new = [annotate paper v]
                    /\ results' = results ++ [length (heap w)])
       end.

(** The papers of a Markdown report, chosen among the records of the
    run: at most twenty, relevant, in the order of the report. *)
Definition selected (records shown : list json) : Prop :=
  (length shown <= 20)%nat
  /\ Forall (fun p => p ∈ records /\ is_relevant p = Ok true) shown
  /\ StronglySorted ranked_above shown.

(** The events of the part of the function after the loop. *)
Definition reported (py_str : json -> string) (strftime : string -> string)
    (records : list json) (T : list event) : Prop :=
  T = [Written AnalysisJson (Records records)]
  \/ exists shown,
       selected records shown
       /\ T = [Written AnalysisJson (Records records);
               Written MarkdownReport (Chunks (fst (markdown_report py_str strftime shown)))].

Definition is_dict (v : json) : Prop := exists d, v = JObj d.

(** The abstract of a paper is a string with something else than
    whitespace in it: the test of line 45 holds. *)
Definition nonblank_abstract (p : json) : bool :=
  match has_abstract p with Ok true => true | _ => false end.

(** The sub-list of the papers with non-blank abstracts. *)
Definition with_abstracts (papers : json) : list json :=
  match py_iter papers with
  | Ok items => filter (fun p => nonblank_abstract p = true) items
  | Raise _ => []
  end.

(** The fields of the judgment with the values that lines 187 to 198
    give them when the answer of the model lacks them. *)
Definition DEFAULTS : list (string * json) :=
  [("is_relevant", JBool false); ("aspects", JArr []); ("is_large_trial", JBool false);
   ("summary", JStr EmptyString); ("revolutionary_aspects", JNull);
   ("impact_score", JInt 0)].

Definition PAPER_INFO_FIELDS : list string :=
  ["pubmed_id"; "title"; "url"; "journal"; "publication_date"].

(** An input record with the fields of an article. *)
Definition article_like (p : json) : Prop :=
  exists d, p = JObj d /\ Forall (fun k => dmem k d = true) ARTICLE_FIELDS.


(** The key of the record behind a reference. *)
Definition key_at (h : list json) (l : loc) : sort_key :=
  match h !! l with
  | Some p => match paper_sort_key p with Ok k => k | Raise _ => (JNull, 0, 0) end
  | None => (JNull, 0, 0)
  end.

(** ** A run of the three scripts on two articles *)

Definition dq : string := String (ascii_of_nat 34) EmptyString.

(** A paper whose abstract is whitespace. *)
Definition blank_paper : json :=
  JObj [("pubmed_id", JStr "40000009");
        ("title", JStr "Correspondence");
        ("journal", JStr "Lancet");
        ("publication_date", JStr "2025");
        ("abstract", JStr ("  " +:+ nl));
        ("url", JStr "https://pubmed.ncbi.nlm.nih.gov/40000009/");
        ("publication_types", JArr [JStr "Letter"])].

Definition sample_papers : json := JArr [sample_paper; blank_paper; second_paper].

(** The JSON text
    {"is_relevant": true, "aspects": ["Predictive", "Predictive", "Genomic"], "impact_score": 11}
    and the value that [json.loads] gives for it. *)
Definition judged_text : string :=
  "{" +:+ dq +:+ "is_relevant" +:+ dq +:+ ": true, "
      +:+ dq +:+ "aspects" +:+ dq +:+ ": ["
      +:+ dq +:+ "Predictive" +:+ dq +:+ ", "
      +:+ dq +:+ "Predictive" +:+ dq +:+ ", "
      +:+ dq +:+ "Genomic" +:+ dq +:+ "], "
      +:+ dq +:+ "impact_score" +:+ dq +:+ ": 11}".

Definition judged_value : json :=
  JObj [("is_relevant", JBool true);
        ("aspects", JArr [JStr "Predictive"; JStr "Predictive"; JStr "Genomic"]);
        ("impact_score", JInt 11)].

(** An answer of the model that wraps the JSON text in a code block. *)
Definition fenced_answer : string :=
  "Here is the review." +:+ nl +:+ "```json" +:+ nl +:+ judged_text +:+ nl +:+ "```" +:+ nl.

(** [json.loads] on the two texts of the run. *)
Definition loads_sample (s : string) : option json :=
  if String.eqb s "{}" then Some (JObj [])
  else if String.eqb s judged_text then Some judged_value
  else None.

(** The model API of the run: a timeout, the fenced answer for the
    first paper, the answer {} for the second. *)
Definition sample_net (n : nat) : attempt :=
  match n with
  | 0%nat => Timeout
  | 1%nat => Response 200 (Ok (gemini_answer fenced_answer))
  | 2%nat => Response 200 (Ok (gemini_answer "{}"))
  | _ => RequestError
  end.

Definition sample_date (fmt : string) : string := "2025-04-20".

Definition sample_run : res (list loc) * world :=
  analyze_papers_with_gemini loads_sample str_of_scalar sample_date sample_net
    sample_papers None empty_world.




(** ** A run with three relevant papers *)

Definition third_paper : json :=
  JObj [("pubmed_id", JStr "40000004");
        ("title", JStr "Shared decisions in oncology");
        ("journal", JStr "JAMA");
        ("publication_date", JStr "2025 Feb");
        ("abstract", JStr "A randomized trial of shared decisions.");
        ("url", JStr "https://pubmed.ncbi.nlm.nih.gov/40000004/");
        ("publication_types", JArr [JStr "Randomized Controlled Trial"])].

Definition quoted (s : string) : string := dq +:+ s +:+ dq.

(** {"is_relevant": true, "is_large_trial": true, "impact_score": 7} *)
Definition trial_text : string :=
  "{" +:+ quoted "is_relevant" +:+ ": true, " +:+ quoted "is_large_trial" +:+ ": true, "
      +:+ quoted "impact_score" +:+ ": 7}".

(** {"is_relevant": true, "impact_score": 9} *)
Definition high_text : string :=
  "{" +:+ quoted "is_relevant" +:+ ": true, " +:+ quoted "impact_score" +:+ ": 9}".

(** {"is_relevant": true, "revolutionary_aspects": "A first.", "impact_score": 7} *)
Definition novel_text : string :=
  "{" +:+ quoted "is_relevant" +:+ ": true, " +:+ quoted "revolutionary_aspects" +:+ ": "
      +:+ quoted "A first." +:+ ", " +:+ quoted "impact_score" +:+ ": 7}".

Definition loads_ranked (s : string) : option json :=
  if String.eqb s trial_text
  then Some (JObj [("is_relevant", JBool true); ("is_large_trial", JBool true);
                   ("impact_score", JInt 7)])
  else if String.eqb s high_text
  then Some (JObj [("is_relevant", JBool true); ("impact_score", JInt 9)])
  else if String.eqb s novel_text
  then Some (JObj [("is_relevant", JBool true);
                   ("revolutionary_aspects", JStr "A first.");
                   ("impact_score", JInt 7)])
  else None.

Definition ranked_net (n : nat) : attempt :=
  match n with
  | 0%nat => Response 200 (Ok (gemini_answer trial_text))
  | 1%nat => Response 200 (Ok (gemini_answer high_text))
  | _ => Response 200 (Ok (gemini_answer novel_text))
  end.

Definition ranked_papers : json := JArr [sample_paper; second_paper; third_paper].

Definition ranked_run : res (list loc) * world :=
  analyze_papers_with_gemini loads_ranked str_of_scalar sample_date ranked_net
    ranked_papers None empty_world.

(** What a run wrote to the Markdown report. *)
Definition report_of (w : world) : list (list string) :=
  omap (fun e => match e with
                 | Written MarkdownReport (Chunks c) => Some c
                 | _ => None
                 end) (trace w).

(** ** Further properties: well-formed input and answers *)

(** A paper that the loop can print and put in a prompt: a
    dictionary whose title is a string or a list and that has a
    journal, a publication date and an abstract. *)
Definition promptable (paper : json) : Prop :=
  exists d title,
    paper = JObj d /\ dget "title" d = Some title /\ sliceable title = Ok tt
    /\ dmem "journal" d = true /\ dmem "publication_date" d = true
    /\ dmem "abstract" d = true.



(** ** Further properties: answers in a code fence *)

(** The string has no backtick in it. *)
Fixpoint no_backtick (s : string) : bool :=
  match s with
  | EmptyString => true
  | String a r => negb (Ascii.eqb a "`") && no_backtick r
  end.

(** ** Further properties: the records of a report *)

(** The test of line 222 holds for the record. *)
Definition relevant (p : json) : bool :=
  match is_relevant p with Ok true => true | _ => false end.

(** The references of [results] whose records are relevant, in the
    order of [results]. *)
Definition relevant_of (results : list loc) (records : list json) : list loc :=
  (filter (fun lp => relevant (snd lp) = true) (zip results records)).*1.

(** An article of the data model, as a value of [json.load]. *)
Definition article (p : json) : Prop :=
  exists d, p = JObj d /\ is_article d = true.


(** ** Further properties: the records of a search *)

(** The value of an element text: a string, or null where the
    element has children before any text. *)
Definition nullable_str (v : json) : Prop := v = JNull \/ exists s, v = JStr s.

(** A record as the loop of lines 93 to 170 of the search builds it:
    the seven fields in their order; the date, the abstract and the
    URL are strings, the URL made of the identifier; the identifier,
    the title, the journal and each publication type can be null. *)
Definition search_record (p : json) : Prop :=
  exists pmid title journal date abstract types,
    p = JObj [("pubmed_id", pmid); ("title", title); ("journal", journal);
              ("publication_date", JStr date); ("abstract", JStr abstract);
              ("url", JStr ("https://pubmed.ncbi.nlm.nih.gov/"
                            +:+ match pmid with JStr s => s | _ => "None" end
                            +:+ "/"));
              ("publication_types", JArr types)]
    /\ nullable_str pmid /\ nullable_str title /\ nullable_str journal
    /\ Forall nullable_str types.

(** ** The entry points of the scripts *)

(** [s.endswith(suffix)]. *)
Fixpoint py_endswith (suffix s : string) : bool :=
  String.eqb suffix s ||
  match s with
  | EmptyString => false
  | String _ r => py_endswith suffix r
  end.

(** The test of the comprehension of line 321 of analyze_papers.py
    and of line 33 of example.py. *)
Definition is_papers_file (f : string) : bool :=
  String.prefix "medical_papers_" f && py_endswith ".json" f.

Section Newest.
Context {A : Type}.

(** The key of the sort: a modification time. *)
Variable key : A -> Q.

Fixpoint insert_newer (x : A) (l : list A) : list A :=
  match l with
  | [] => [x]
  | y :: r => if num_ltb (key x) (key y) then y :: insert_newer x r else x :: y :: r
  end.

(** [sorted(l, key=key, reverse=True)] and [l.sort(key=key,
    reverse=True)]: descending, items with equal keys in the order
    they had. *)
Definition sort_newest_first (l : list A) : list A := foldr insert_newer [] l.
End Newest.

(** Lines 320 to 331 of analyze_papers.py, on the listing of
    [os.listdir()] and the times of [os.path.getmtime]: the most
    recent file of papers; [None] is [exit(1)]. *)
Definition most_recent_file (listdir : list string) (getmtime : string -> Q)
  : option string :=
  let json_files := List.filter is_papers_file listdir in
  match json_files with
  | [] => None
  | _ =>
      let file_times := (fun f => (f, getmtime f)) <$> json_files in
      fst <$> head (sort_newest_first snd file_times)
  end.

(** ** example.py *)

(** What [load_journal_config] returns when the file is missing,
    lines 213 to 218 of search_medical_papers.py. *)
Definition FALLBACK_CONFIG : json :=
  JObj [("journal_groups",
         JObj [("major_medical",
                JArr [JStr "Lancet"; JStr "The New England journal of medicine";
                      JStr "JAMA"; JStr "BMJ"])]);
        ("default_group", JStr "major_medical")].

(** The strings that [', '.join(v)] joins. *)
Definition joined (v : json) : res (list string) :=
  items <~ py_iter v ;;
  res_map as_str items.

Section Example.
Variable json_loads : string -> option json.
Variable py_str : json -> string.
Variable strftime : string -> string.
Variable net : nat -> attempt.
Variable fromstring : string -> option element.
Variable esearch : res json.
Variable efetch : res string.

(** The text of journal_config.json; [None] when [open] raises
    FileNotFoundError. *)
Variable config_file : option string.

(** [os.listdir()], [os.path.getmtime] and the value of [json.load]
    on a file. *)
Variable listdir : list string.
Variable getmtime : string -> Q.
Variable read_json : string -> res json.

(** [load_journal_config()], lines 201 to 218 of
    search_medical_papers.py. *)
Definition load_journal_config : res json :=
  match config_file with
  | None => Ok FALLBACK_CONFIG
  | Some text => of_option JSONDecodeError (json_loads text)
  end.

(** [main] of example.py.  The function [search_medical_papers] is
    imported, so the global [group_name] is not bound. *)
Definition example_main : M unit :=
  config <- lift load_journal_config ;;
  journal_groups <- lift (py_getitem config "journal_groups") ;;
  journals <- lift (py_getitem journal_groups "major_medical") ;;
  names <- lift (joined journals) ;;
  papers <- search_medical_papers fromstring None esearch efetch (Some names) ;;
  match papers with
  | [] => ret tt
  | _ =>
      match List.filter is_papers_file listdir with
      | [] => ret tt
      | json_files =>
          json_file <- lift (of_option IndexError
                               (head (sort_newest_first getmtime json_files))) ;;
          loaded <- lift (read_json json_file) ;;
          analyze_papers_with_gemini json_loads py_str strftime net loaded (Some 10) ;;;
          ret tt
      end
  end.
End Example.

(** ** convert_to_csv.py as a script *)

(** [s.replace(old, new)] for a non-empty [old]: every left-to-right,
    non-overlapping occurrence of [old] becomes [new]. *)
Fixpoint replace_go (old new : string) (skip : nat) (s : string) : string :=
  match s with
  | EmptyString => EmptyString
  | String a r =>
      match skip with
      | S k => replace_go old new k r
      | O =>
          if String.prefix old s
          then new +:+ replace_go old new (String.length old - 1) r
          else String a (replace_go old new 0 r)
      end
  end.

Definition py_replace (old new s : string) : string := replace_go old new 0 s.

(** The [__main__] block of convert_to_csv.py on [sys.argv];
    [read_json] is the value of [json.load] on a file, or the
    exception of [open] or of the decoding. *)
Definition convert_main (read_json : string -> res json) (argv : list string) : M unit :=
  let json_file :=
    match argv with
    | _ :: f :: _ => f
    | _ => "medical_papers_major_medical_20250420.json"
    end in
  let csv_file := py_replace ".json" ".csv" json_file in
  loaded <- lift (read_json json_file) ;;
  convert_json_to_csv loaded csv_file.

(** * Properties *)

(** ** Stripping *)

Lemma ws_tail_shorter (s r : string) :
  ws_tail s = Some r -> (String.length r < String.length s)%nat.
Proof.
  unfold ws_tail. destruct s as [|a s]; [discriminate|].
  destruct (ascii_space a).
  { intros [= ->]. simpl. lia. }
  destruct s as [|b s]; [discriminate|].
  match goal with |- context [if ?c then _ else _] => destruct c end.
  { intros [= ->]. simpl. lia. }
  destruct s as [|c s]; [discriminate|].
  cbv zeta.
  match goal with |- context [if ?c then _ else _] => destruct c end;
    [|discriminate].
  intros [= ->]. simpl. lia.
Qed.

Lemma lstrip_go_done (fuel : nat) (s : string) :
  (String.length s <= fuel)%nat -> ws_tail (lstrip_go fuel s) = None.
Proof.
  revert s. induction fuel as [|fuel IH]; intros s Hlen; simpl.
  - destruct s; [reflexivity|simpl in Hlen; lia].
  - destruct (ws_tail s) as [r|] eqn:E; [|exact E].
    apply IH. apply ws_tail_shorter in E. lia.
Qed.

(** The loop of [lstrip] ends because no whitespace is left, not
    because it ran out of steps. *)
Lemma lstrip_done (s : string) : ws_tail (lstrip s) = None.
Proof. apply lstrip_go_done. reflexivity. Qed.

Lemma lstrip_go_fixed (fuel : nat) (s : string) :
  ws_tail s = None -> lstrip_go fuel s = s.
Proof. intros E. destruct fuel; simpl; [reflexivity|]. by rewrite E. Qed.

Lemma lstrip_idempotent (s : string) : lstrip (lstrip s) = lstrip s.
Proof. apply lstrip_go_fixed, lstrip_done. Qed.

(** [s.strip()] is empty exactly for the strings of whitespace. *)
Lemma py_strip_empty (s : string) : str_empty (py_strip s) = blank s.
Proof.
  unfold py_strip, blank.
  destruct (lstrip s) as [|a r] eqn:E; [reflexivity|].
  simpl. unfold blank. rewrite <- E, lstrip_idempotent, E. reflexivity.
Qed.

Example strip_example :
  py_strip (" 2025 Apr  " +:+ nl) = "2025 Apr" /\ blank ("  " +:+ nl) = true
  /\ blank " x " = false.
Proof. repeat split. Qed.

(** Membership in a list that is written out. *)
Ltac in_list := apply list_elem_of_In; simpl; tauto.

(** ** The monad *)

Lemma bind_ok {A B} (m : M A) (k : A -> M B) (w w1 : world) (a : A) :
  m w = (Ok a, w1) -> bind m k w = k a w1.
Proof. unfold bind. by intros ->. Qed.

(** A run of [bind m k] is a run of [m] followed by a run of [k], or
    a run of [m] that raises. *)
Lemma bind_inv {A B} (m : M A) (k : A -> M B) (w w' : world) (r : res B) :
  bind m k w = (r, w') ->
  (exists a w1, m w = (Ok a, w1) /\ k a w1 = (r, w'))
  \/ (exists e, m w = (Raise e, w') /\ r = Raise e).
Proof.
  unfold bind. destruct (m w) as [[a|e] w1]; intros H.
  - left. eauto.
  - right. injection H as <- <-. eauto.
Qed.

Lemma lift_inv {A} (x : res A) (w w' : world) (r : res A) :
  lift x w = (r, w') -> r = x /\ w' = w.
Proof. unfold lift. by intros [= <- <-]. Qed.

(** ** search_medical_papers.py: the fields of an article *)

Lemma process_article_fields (article : element) (paper : dict) :
  process_article article = Some paper -> paper.*1 = ARTICLE_FIELDS.
Proof.
  unfold process_article.
  destruct (find ["MedlineCitation"] article) as [mc|]; [|discriminate].
  destruct (find ["Article"] mc) as [ad|]; [|discriminate].
  intros [= <-].
  destruct (find ["Journal"; "JournalIssue"; "PubDate"] ad);
    destruct (find ["Abstract"] ad); reflexivity.
Qed.

Lemma forallb_is_str_texts (l : list element) :
  Forall (fun e => el_text e <> None) l ->
  forallb is_str ((fun pub_type => json_of_text (el_text pub_type)) <$> l) = true.
Proof.
  induction 1 as [|e l He _ IH]; simpl; [done|].
  destruct (el_text e); [exact IH|done].
Qed.

(** Where the elements that are present have a text, the record is an
    article of the data model. *)
Lemma process_article_typed (article : element) (paper : dict) :
  process_article article = Some paper ->
  (forall mc ad,
      find ["MedlineCitation"] article = Some mc ->
      find ["Article"] mc = Some ad ->
      text_of (find ["PMID"] mc) <> None
      /\ text_of (find ["ArticleTitle"] ad) <> None
      /\ text_of (find ["Journal"; "Title"] ad) <> None
      /\ forall types, find ["PublicationTypeList"] ad = Some types ->
           Forall (fun e => el_text e <> None) (findall ["PublicationType"] types)) ->
  is_article paper = true.
Proof.
  unfold process_article. intros H Htext.
  destruct (find ["MedlineCitation"] article) as [mc|] eqn:Emc; [|discriminate].
  destruct (find ["Article"] mc) as [ad|] eqn:Ead; [|discriminate].
  destruct (Htext mc ad eq_refl Ead) as (Hpmid & Htitle & Hjournal & Htypes).
  destruct (text_of (find ["PMID"] mc)) as [pmid|]; [|done].
  destruct (text_of (find ["ArticleTitle"] ad)) as [title|]; [|done].
  destruct (text_of (find ["Journal"; "Title"] ad)) as [journal|]; [|done].
  injection H as <-.
  assert (forallb is_str
            match find ["PublicationTypeList"] ad with
            | Some pub_type_list =>
                (fun pub_type => json_of_text (el_text pub_type))
                  <$> findall ["PublicationType"] pub_type_list
            | None => []
            end = true) as Hlist.
  { destruct (find ["PublicationTypeList"] ad) as [types|]; [|done].
    by apply forallb_is_str_texts, Htypes. }
  unfold is_article.
  destruct (find ["Journal"; "JournalIssue"; "PubDate"] ad);
    destruct (find ["Abstract"] ad);
    (apply andb_true_intro; split; [reflexivity|exact Hlist]).
Qed.

(** With a name for the module global, the run on the article with
    markup in its title returns and saves one record. *)
Lemma search_markup_title_run :
  exists paper,
    search_medical_papers (fun _ => Some markup_title_set) (Some "major_medical")
      (Ok one_id_found) (Ok "<PubmedArticleSet>...</PubmedArticleSet>") None empty_world
    = (Ok [JObj paper],
       World [] 0 [Fetched "esearch.fcgi"; Fetched "efetch.fcgi";
                   Written PubmedResponseXml (Text "<PubmedArticleSet>...</PubmedArticleSet>");
                   Written (MedicalPapersGroup "major_medical") (Records [JObj paper])])
    /\ process_article markup_title_article = Some paper.
Proof. eexists. split; vm_compute; reflexivity. Qed.

(** C4, at the input where it fails: the record of an article whose
    title element opens with markup has the seven fields of the data
    model and no others, but its title is null, not a string, so the
    record is not an article of the data model. *)
Theorem article_title_null_on_markup :
  exists paper,
    process_article markup_title_article = Some paper
    /\ paper.*1 = ARTICLE_FIELDS
    /\ dget "title" paper = Some JNull
    /\ dget "abstract" paper = Some (JStr "BACKGROUND: Carriers differ. ")
    /\ is_article paper = false.
Proof. eexists. split; [vm_compute; reflexivity|]. repeat split. Qed.

(** ** search_medical_papers.py: the save step without [group_name] *)

Lemma save_papers_unnamed (journals : list string) (papers : list json) (w : world) :
  save_papers None journals papers w = (Raise (NameError "group_name"), w).
Proof. reflexivity. Qed.

(** C8: called as an imported function, [group_name] has no value.
    Every run that gets a tree to process raises NameError at the save
    step, whatever the tree holds, and every run that returns has
    taken one of the early exits and returns the empty list. *)
Theorem search_imported_raises_NameError
    (fromstring : string -> option element) (esearch : res json)
    (efetch : res string) (journals : option (list string)) (w : world) :
  (forall root w1,
      fetch_root fromstring esearch efetch w = (Ok (Some root), w1) ->
      search_medical_papers fromstring None esearch efetch journals w
      = (Raise (NameError "group_name"), w1))
  /\ (forall papers w',
         search_medical_papers fromstring None esearch efetch journals w
         = (Ok papers, w') ->
         papers = []
         /\ fetch_root fromstring esearch efetch w = (Ok None, w')).
Proof.
  split.
  - intros root w1 H. unfold search_medical_papers.
    rewrite (bind_ok _ _ _ _ _ H). apply save_papers_unnamed.
  - intros papers w' H. unfold search_medical_papers in H.
    apply bind_inv in H as [(root & w1 & Hf & Hk)|(e & _ & [=])].
    destruct root as [root|].
    + rewrite save_papers_unnamed in Hk. discriminate.
    + injection Hk as <- <-. by split.
Qed.

(** The save step is reached on ordinary answers of PubMed. *)
Lemma search_imported_raises_NameError_witness :
  search_medical_papers (fun _ => Some plain_title_set) None
    (Ok one_id_found) (Ok "<PubmedArticleSet>...</PubmedArticleSet>")
    (Some ["Lancet"]) empty_world
  = (Raise (NameError "group_name"),
     World [] 0 [Fetched "esearch.fcgi"; Fetched "efetch.fcgi";
                 Written PubmedResponseXml (Text "<PubmedArticleSet>...</PubmedArticleSet>")]).
Proof.
  apply (proj1 (search_imported_raises_NameError (fun _ => Some plain_title_set)
                  (Ok one_id_found) (Ok "<PubmedArticleSet>...</PubmedArticleSet>")
                  (Some ["Lancet"]) empty_world) plain_title_set).
  vm_compute. reflexivity.
Defined.

(** ** Objects of the store *)

Lemma mmap_alloc (items : list json) (w : world) :
  mmap alloc items w
  = (Ok (seq (length (heap w)) (length items)),
     World (heap w ++ items) (sent w) (trace w)).
Proof.
  revert w. induction items as [|v items IH]; intros w; simpl.
  - unfold ret. rewrite app_nil_r. by destruct w.
  - unfold bind at 1, alloc at 1. unfold bind at 1. rewrite IH. simpl.
    unfold ret. rewrite length_app, <- app_assoc. simpl.
    by rewrite Nat.add_1_r.
Qed.

Lemma mmap_load (ls : list loc) (vs : list json) (w : world) :
  Forall2 (fun l v => heap w !! l = Some v) ls vs ->
  mmap load ls w = (Ok vs, w).
Proof.
  induction 1 as [|l v ls vs Hl _ IH]; simpl; [reflexivity|].
  unfold bind at 1, load at 1. rewrite Hl. simpl.
  unfold bind at 1. rewrite IH. reflexivity.
Qed.

Lemma mmap_load_inv (ls : list loc) (w w' : world) (r : res (list json)) :
  mmap load ls w = (r, w') ->
  w' = w /\ forall vs, r = Ok vs -> Forall2 (fun l v => heap w !! l = Some v) ls vs.
Proof.
  revert r w'. induction ls as [|l ls IH]; intros r w'; simpl.
  - intros [= <- <-]. split; [done|]. intros vs [= <-]. constructor.
  - unfold bind at 1, load at 1.
    destruct (heap w !! l) as [v|] eqn:Hl; simpl.
    + unfold bind at 1. destruct (mmap load ls w) as [[vs|e] w1] eqn:E.
      * destruct (IH _ _ eq_refl) as [-> Hvs].
        intros [= <- <-]. split; [done|]. intros ? [= <-].
        constructor; [done|]. by apply Hvs.
      * destruct (IH _ _ eq_refl) as [-> _].
        intros [= <- <-]. split; [done|]. discriminate.
    + intros [= <- <-]. split; [done|]. discriminate.
Qed.

Lemma fresh_objects (h items : list json) :
  Forall2 (fun l v => (h ++ items) !! l = Some v) (seq (length h) (length items)) items.
Proof.
  revert h. induction items as [|v items IH]; intros h; simpl; constructor.
  - rewrite lookup_app_r by lia. by rewrite Nat.sub_diag.
  - specialize (IH (h ++ [v])). rewrite length_app, <- app_assoc in IH.
    simpl in IH. by rewrite Nat.add_1_r in IH.
Qed.

(** ** convert_to_csv.py *)

(** A run on a value that is true and can be iterated: the items
    become objects of the store, stay as loaded, and one file with
    the header and the rows is written. *)
Lemma convert_json_to_csv_run (loaded : json) (items : list json)
    (csv_file : string) (w : world) :
  truthy loaded = true ->
  py_iter loaded = Ok items ->
  convert_json_to_csv loaded csv_file w
  = (match snd (csv_rows items) with Some e => Raise e | None => Ok tt end,
     World (heap w ++ items) (sent w)
       (trace w ++ [Written (CsvFile csv_file)
                      (Rows ((JStr <$> CSV_FIELDS) :: fst (csv_rows items)))])).
Proof.
  intros Ht Hi. unfold convert_json_to_csv. rewrite Ht, Hi. cbn [negb].
  rewrite (bind_ok _ _ _ _ _ (mmap_alloc _ _)).
  rewrite (bind_ok _ _ _ _ _
             (mmap_load _ items
                (World (heap w ++ items) (sent w) (trace w))
                (fresh_objects (heap w) items))).
  destruct (csv_rows items) as [rows [e|]]; reflexivity.
Qed.

(** The store after any run: what was there, then the loaded items. *)
Lemma convert_json_to_csv_store (loaded : json) (csv_file : string) (w : world) :
  exists items,
    heap (snd (convert_json_to_csv loaded csv_file w)) = heap w ++ items
    /\ (items = [] \/ py_iter loaded = Ok items).
Proof.
  destruct (truthy loaded) eqn:Ht.
  - destruct (py_iter loaded) as [items|e] eqn:Hi.
    + exists items. rewrite (convert_json_to_csv_run _ _ _ _ Ht Hi). simpl. eauto.
    + exists []. unfold convert_json_to_csv. rewrite Ht, Hi. simpl.
      rewrite app_nil_r. eauto.
  - exists []. unfold convert_json_to_csv. rewrite Ht. simpl.
    rewrite app_nil_r. eauto.
Qed.






(** ** analyze_papers.py: the retry loop *)

Lemma posts_S (paper : json) (first n : nat) :
  posts paper first (S n) = Post paper (S first) :: posts paper (S first) n.
Proof.
  unfold posts. simpl. rewrite Nat.add_0_r. f_equal.
  rewrite <- fmap_S_seq, <- list_fmap_compose. apply list_fmap_ext.
  intros _ i _. simpl. f_equal. lia.
Qed.

Section RetryLoop.
Variable net : nat -> attempt.

Opaque max_retries.

Lemma request_loop_spec (fuel : nat) (paper : json) (retry_count : nat)
    (response : option (Z * res json)) (w : world) :
  (retry_count <= max_retries)%nat ->
  (max_retries - retry_count <= fuel)%nat ->
  exists n success response' w',
    request_loop net fuel paper retry_count false response w
    = (Ok (success, response'), w')
    /\ loop_outcome net paper retry_count w n success response' w'.
Proof.
  revert retry_count response w.
  induction fuel as [|fuel IH]; intros rc response w Hrc Hfuel.
  - assert (rc = max_retries) as -> by lia.
    exists 0%nat, false, response, w. split; [reflexivity|].
    unfold loop_outcome, posts. simpl. rewrite Nat.add_0_r, app_nil_r.
    repeat split; try lia; try done. by destruct w.
  - simpl. destruct (rc <? max_retries)%nat eqn:Hlt; simpl.
    2: { apply Nat.ltb_ge in Hlt. assert (rc = max_retries) as -> by lia.
         exists 0%nat, false, response, w. split; [reflexivity|].
         unfold loop_outcome, posts. simpl. rewrite Nat.add_0_r, app_nil_r.
         repeat split; try lia; try done. by destruct w. }
    apply Nat.ltb_lt in Hlt.
    unfold bind at 1, post at 1. cbn [heap sent trace].
    set (w1 := World (heap w) (S (sent w)) (trace w ++ [Post paper (S rc)])).
    assert (forall resp1,
               failed (net (sent w)) = true ->
               exists n success response' w',
                 request_loop net fuel paper (S rc) false resp1 w1
                 = (Ok (success, response'), w')
                 /\ loop_outcome net paper rc w n success response' w') as Hfail.
    { intros resp1 Hf.
      destruct (IH (S rc) resp1 w1) as (n & s & r' & w' & Hrun & Hw' & Hle & Hpre & Hs & Hn);
        [lia|lia|].
      exists (S n), s, r', w'. split; [exact Hrun|].
      unfold loop_outcome. subst w1. cbn [heap sent trace] in *.
      repeat split.
      - rewrite Hw', posts_S, <- app_assoc. simpl. f_equal. lia.
      - lia.
      - intros i Hi. destruct i as [|i]; [by rewrite Nat.add_0_r|].
        replace (sent w + S i)%nat with (S (sent w) + i)%nat by lia.
        apply Hpre. lia.
      - intros Hst. destruct (Hs Hst) as (m & body & -> & Hnet & ->).
        exists (S m), body. repeat split.
        by replace (sent w + S m)%nat with (S (sent w) + m)%nat by lia.
      - apply Hn in H. lia.
      - intros i Hi. destruct i as [|i]; [by rewrite Nat.add_0_r|].
        replace (sent w + S i)%nat with (S (sent w) + i)%nat by lia.
        apply Hn; [done|lia]. }
    destruct (net (sent w)) as [| |code body] eqn:Hnet.
    + by apply Hfail.
    + by apply Hfail.
    + destruct (code =? 200) eqn:Hcode.
      * apply Z.eqb_eq in Hcode as ->.
        exists 1%nat, true, (Some (200, body)), w1. split.
        { destruct fuel; simpl; rewrite andb_false_r; reflexivity. }
        unfold loop_outcome. subst w1. repeat split; try lia.
        -- f_equal; [lia|]. unfold posts. simpl. by rewrite Nat.add_0_r.
        -- intros _. exists 0%nat, body. by rewrite Nat.add_0_r.
      * destruct (max_retries <=? S rc)%nat eqn:Hmax.
        -- apply Nat.leb_le in Hmax.
           exists 1%nat, false, (Some (code, body)), w1. split; [reflexivity|].
           unfold loop_outcome. subst w1. repeat split; try lia.
           ++ f_equal; [lia|]. unfold posts. simpl. by rewrite Nat.add_0_r.
           ++ intros i Hi. assert (i = 0%nat) as -> by lia.
              rewrite Nat.add_0_r, Hnet. simpl. by rewrite Hcode.
        -- apply Hfail. simpl. by rewrite Hcode.
Qed.

Transparent max_retries.
End RetryLoop.

(** C3 as stated fails: after a response with status 500 the request
    is sent again, although nothing timed out. *)
Lemma retry_after_server_error : ~ retries_only_after_timeout.
Proof.
  intros H.
  specialize (H net_500_then_200 sample_paper empty_world _ _ eq_refl 0%nat).
  simpl in H. discriminate H. lia.
Qed.

(** C3, amended: for every paper the loop sends between one and three
    requests and then ends.  A request is sent again exactly when the
    previous attempt failed, by a timeout, by another request error or
    by a response whose status is not 200; the loop reports success
    when the last attempt was answered with status 200, and gives the
    paper up after three failed attempts. *)
Theorem retry_loop_at_most_three (net : nat -> attempt) (paper : json) (w : world) :
  exists n success response w',
    request_loop net max_retries paper 0 false None w = (Ok (success, response), w')
    /\ (1 <= n <= 3)%nat
    /\ heap w' = heap w
    /\ sent w' = (sent w + n)%nat
    /\ trace w' = trace w ++ posts paper 0 n
    /\ (forall i, (S i < n)%nat -> failed (net (sent w + i)%nat) = true)
    /\ (success = true ->
        exists body, net (sent w + n - 1)%nat = Response 200 body
                     /\ response = Some (200, body))
    /\ (success = false ->
        n = 3%nat /\ forall i, (i < n)%nat -> failed (net (sent w + i)%nat) = true).
Proof.
  destruct (request_loop_spec net max_retries paper 0 None w)
    as (n & s & r & w' & Hrun & -> & Hle & Hpre & Hs & Hf); [lia|lia|].
  exists n, s, r. eexists. split; [exact Hrun|]. simpl.
  assert (1 <= n <= 3)%nat as Hn.
  { destruct s.
    - destruct Hs as (m & ? & -> & _); [done|]. unfold max_retries in Hle. lia.
    - destruct Hf as [Hn _]; [done|]. unfold max_retries in Hn. lia. }
  do 5 (split; [first [exact Hn | exact Hpre | reflexivity]|]).
  split.
  - intros Hst. destruct (Hs Hst) as (m & body & -> & Hnet & ->).
    exists body. split; [|done]. by replace (sent w + S m - 1)%nat with (sent w + m)%nat by lia.
  - intros Hst. destruct (Hf Hst) as [Hn' Hall]. split; [|done].
    unfold max_retries in Hn'. lia.
Qed.

(** ** The order of the report *)

Lemma num_ltb_spec (a b : Q) : reflect (a < b)%Q (num_ltb a b).
Proof.
  unfold num_ltb. destruct (a ?= b)%Q eqn:E; constructor.
  - apply Qeq_alt in E. lra.
  - by apply Qlt_alt.
  - apply Qgt_alt in E. lra.
Qed.

Lemma num_eqb_spec (a b : Q) : reflect (a == b)%Q (Qeq_bool a b).
Proof. apply iff_reflect. symmetry. apply Qeq_bool_iff. Qed.

(** [a < b] does not hold: the first components that differ, if any,
    are in descending order. *)
Lemma key_geq_spec (a1 b1 : Q) (a2 a3 b2 b3 : Z) :
  key_geq (a1, a2, a3) (b1, b2, b3) <->
  (b1 < a1)%Q \/ (a1 == b1)%Q /\ (b2 < a2 \/ a2 = b2 /\ b3 <= a3).
Proof.
  unfold key_geq, key_ltb.
  destruct (num_ltb_spec a1 b1), (num_eqb_spec a1 b1); simpl.
  - split; [discriminate|]. intros [?|[? _]]; lra.
  - split; [discriminate|]. intros [?|[? _]]; lra.
  - transitivity (b2 < a2 \/ a2 = b2 /\ b3 <= a3).
    + destruct (Z.ltb_spec a2 b2), (Z.eqb_spec a2 b2), (Z.ltb_spec a3 b3); simpl;
        (split; [intros Hb; first [discriminate Hb | lia] | intros Hb; first [done | lia]]).
    + split; [intros Hb; right; by split | intros [Hb|[_ Hb]]; [lra|done]].
  - split; [intros _; left; lra|done].
Qed.

Lemma key_geq_total (a b : Q * Z * Z) : key_ltb a b = true -> key_geq b a.
Proof.
  destruct a as [[a1 a2] a3], b as [[b1 b2] b3]. intros Hlt.
  apply key_geq_spec. unfold key_ltb in Hlt.
  destruct (num_ltb_spec a1 b1); [by left|]. simpl in Hlt.
  destruct (num_eqb_spec a1 b1); [|discriminate]. simpl in Hlt.
  right. split; [lra|].
  destruct (Z.ltb_spec a2 b2), (Z.eqb_spec a2 b2), (Z.ltb_spec a3 b3);
    simpl in Hlt; try discriminate; lia.
Qed.

Lemma key_geq_trans (a b c : Q * Z * Z) : key_geq a b -> key_geq b c -> key_geq a c.
Proof.
  destruct a as [[a1 a2] a3], b as [[b1 b2] b3], c as [[c1 c2] c3].
  rewrite !key_geq_spec. intros [?|[? Hab]] [?|[? Hbc]].
  - left. lra.
  - left. lra.
  - left. lra.
  - right. split; [lra|lia].
Qed.

Section SortFacts.
Context {A : Type}.
Implicit Types (x : A * (Q * Z * Z)) (l : list (A * (Q * Z * Z))).

Lemma insert_desc_perm x l : insert_desc x l ≡ₚ x :: l.
Proof.
  induction l as [|y l IH]; simpl; [done|].
  destruct (key_ltb (snd x) (snd y)); [|done].
  rewrite IH. apply Permutation_swap.
Qed.

Lemma sort_desc_perm l : sort_desc l ≡ₚ l.
Proof.
  induction l as [|x l IH]; simpl; [done|].
  unfold sort_desc in *. simpl. by rewrite insert_desc_perm, IH.
Qed.

Lemma insert_desc_sorted x l :
  StronglySorted pair_geq l -> StronglySorted pair_geq (insert_desc x l).
Proof.
  induction l as [|y l IH]; simpl; intros Hs.
  - repeat constructor.
  - apply StronglySorted_cons in Hs as [Hy Hl].
    destruct (key_ltb (snd x) (snd y)) eqn:E.
    + apply StronglySorted_cons. split; [|by apply IH].
      rewrite insert_desc_perm. constructor; [|done].
      by apply key_geq_total.
    + apply StronglySorted_cons. split.
      * constructor; [exact E|].
        eapply Forall_impl; [exact Hy|].
        intros z Hz. eapply key_geq_trans; [exact E|exact Hz].
      * by apply StronglySorted_cons.
Qed.

(** The sort returns the items in non-increasing order of the keys. *)
Lemma sort_desc_sorted l : StronglySorted pair_geq (sort_desc l).
Proof.
  induction l as [|x l IH]; [constructor|].
  unfold sort_desc in *. simpl. by apply insert_desc_sorted.
Qed.

Lemma insert_desc_front x l : Forall (pair_geq x) l -> insert_desc x l = x :: l.
Proof.
  destruct 1 as [|y l Hy _]; simpl; [done|].
  unfold pair_geq, key_geq in Hy. by rewrite Hy.
Qed.

(** A list in the order of the report is left as it is; so items with
    equal keys keep their order, as in Python's stable sort. *)
Lemma sort_desc_stable l : StronglySorted pair_geq l -> sort_desc l = l.
Proof.
  induction 1 as [|x l _ IH Hall]; [done|].
  unfold sort_desc in *. simpl. rewrite IH. by apply insert_desc_front.
Qed.
End SortFacts.

Lemma mapM_with_num_key {A} (kf : A -> sort_key) (ls : list A)
    (keyed : list (A * (Q * Z * Z))) :
  mapM with_num_key ((fun a => (a, kf a)) <$> ls) = Some keyed ->
  Forall2 (fun a p => fst p = a /\ num_key (kf a) = Some (snd p)) ls keyed.
Proof.
  intros H. apply mapM_Some_1 in H. apply Forall2_fmap_l in H.
  eapply Forall2_impl; [exact H|]. intros a [a' k]. unfold with_num_key. simpl.
  destruct (num_key (kf a)); [|discriminate]. by intros [= <- <-].
Qed.

Lemma sort_by_num_keys {A} (kf : A -> sort_key) (l sorted : list A) :
  match mapM with_num_key ((fun a => (a, kf a)) <$> l) with
  | Some keyed => Ok (sort_desc keyed).*1
  | None => Raise Unmodelled
  end = Ok sorted ->
  sorted ≡ₚ l
  /\ StronglySorted
       (fun a b => exists ia ib, num_key (kf a) = Some ia /\ num_key (kf b) = Some ib
                                 /\ key_geq ia ib) sorted.
Proof.
  destruct (mapM with_num_key ((fun a => (a, kf a)) <$> l)) as [keyed|] eqn:E;
    [|discriminate].
  intros [= <-]. apply mapM_with_num_key in E.
  assert (keyed.*1 = l) as Hfst.
  { clear -E. induction E as [|? [? ?] ? ? [? _] _ IH]; simpl in *; [done|]. by f_equal. }
  assert (Forall (fun p => num_key (kf (fst p)) = Some (snd p)) keyed) as Hkeys.
  { clear -E. induction E as [|? [? ?] ? ? [? ?] _ IH]; simpl in *; constructor; [|done].
    simpl. by subst. }
  split.
  - rewrite <- Hfst. by apply fmap_Permutation, sort_desc_perm.
  - assert (Forall (fun p => num_key (kf (fst p)) = Some (snd p)) (sort_desc keyed)) as Hk'.
    { by rewrite sort_desc_perm. }
    pose proof (sort_desc_sorted keyed) as Hs.
    clear -Hk' Hs. induction Hs as [|p r Hs IH Hall]; [constructor|].
    apply Forall_cons in Hk' as [Hp Hr]. simpl. constructor; [by apply IH|].
    clear IH Hs. induction Hall as [|q r Hq Hall IHr]; [constructor|].
    apply Forall_cons in Hr as [Hq' Hr]. simpl. constructor; [|by apply IHr].
    exists (snd p), (snd q). done.
Qed.

(** [l.sort(key=..., reverse=True)] with the keys as a function of the
    items: a permutation in which no item stands before one with a
    greater key. *)
Lemma py_sort_reverse_spec {A} (kf : A -> sort_key) (ls sorted : list A) :
  py_sort_reverse ((fun a => (a, kf a)) <$> ls) = Ok sorted ->
  sorted ≡ₚ ls
  /\ StronglySorted
       (fun a b => exists ia ib, num_key (kf a) = Some ia /\ num_key (kf b) = Some ib
                                 /\ key_geq ia ib) sorted.
Proof.
  destruct ls as [|a [|b ls]].
  - intros [= <-]. split; [done|constructor].
  - intros [= <-]. split; [done|]. repeat constructor.
  - apply (sort_by_num_keys kf (a :: b :: ls)).
Qed.

(** ** analyze_papers.py: one paper, then all of them *)

Lemma alter_fresh (f : json -> json) (h : list json) (v : json) :
  alter f (length h) (h ++ [v]) = h ++ [f v].
Proof. rewrite alter_app_r_alt by lia. by rewrite Nat.sub_diag. Qed.

Lemma length_posts (paper : json) (first n : nat) : length (posts paper first n) = n.
Proof. unfold posts. by rewrite length_fmap, length_seq. Qed.

Lemma loop_trace_cons (paper : json) (n : nat) (counts : list (json * nat)) :
  loop_trace ((paper, n) :: counts) = posts paper 0 n ++ loop_trace counts.
Proof. reflexivity. Qed.

Section Classify.
Variable json_loads : string -> option json.
Variable net : nat -> attempt.

Lemma parsed_by_json_loads (body : res json) (v : json) :
  (response_data <~ body ;;
   t <~ extract_text response_data ;;
   match t with
   | None => Ok None
   | Some llm_response => v <~ parse_analysis json_loads llm_response ;; Ok (Some v)
   end) = Ok (Some v) ->
  exists json_str, json_loads json_str = Some v.
Proof.
  destruct body as [response_data|]; [|discriminate]. simpl.
  destruct (extract_text response_data) as [[llm|]|]; try discriminate. simpl.
  destruct (parse_analysis json_loads llm) as [v'|] eqn:E; [|discriminate].
  intros [= <-]. unfold parse_analysis in E.
  destruct llm as [| | | |s|l|kv]; try discriminate.
  - destruct (json_str_of s) as [json_str|]; [|discriminate]. simpl in E.
    exists json_str. by destruct (json_loads json_str); [injection E as ->|].
  - simpl in E. destruct (existsb _ l); [discriminate|].
    by destruct (existsb _ l).
  - simpl in E. destruct (dmem _ kv); [discriminate|].
    by destruct (dmem _ kv).
Qed.

(** The object bound to [analysis] is new, holds the value of
    [json.loads] with the fields of lines 178 to 198, and nothing
    else of the store changes. *)
Lemma analysis_of_spec (paper : json) (body : res json) (w : world) :
  analysis_of json_loads paper body w = (Ok None, w)
  \/ exists v json_str,
       json_loads json_str = Some v /\ v <> JNull
       /\ analysis_of json_loads paper body w
          = (Ok (Some (length (heap w))),
             World (heap w ++ [annotate paper v]) (sent w) (trace w)).
Proof.
  unfold analysis_of.
  match goal with |- context [match ?x with _ => _ end] =>
    destruct x as [[v|]|e] eqn:E end; [|by left..].
  apply parsed_by_json_loads in E as [json_str Hs].
  destruct v; [by left|right; eexists _, json_str; (split; [exact Hs|split; [discriminate|
    unfold bind, alloc, update, ret; cbn [heap sent trace];
    rewrite alter_fresh; reflexivity]]) ..].
Qed.

Lemma request_loop_run (paper : json) (w : world) :
  exists n success response,
    request_loop net max_retries paper 0 false None w
    = (Ok (success, response),
       World (heap w) (sent w + n) (trace w ++ posts paper 0 n))
    /\ (1 <= n <= 3)%nat
    /\ (success = true -> exists body, response = Some (200, body)).
Proof.
  destruct (request_loop_spec net max_retries paper 0 None w)
    as (n & s & r & w' & Hrun & -> & Hle & Hpre & Hs & Hf); [lia|lia|].
  exists n, s, r. split; [exact Hrun|]. split.
  - destruct s.
    + destruct Hs as (m & ? & -> & _); [done|]. unfold max_retries in Hle. lia.
    + destruct Hf as [Hn _]; [done|]. unfold max_retries in Hn. lia.
  - intros Hst. destruct (Hs Hst) as (m & body & _ & _ & ->). eauto.
Qed.

Lemma classify_paper_spec (results : list loc) (paper : json) (w w' : world)
    (r : res (list loc)) :
  classify_paper json_loads net results paper w = (r, w') ->
  classified json_loads paper results w r w'.
Proof.
  assert (forall e, classified json_loads paper results w (Raise e) w) as Hraise.
  { intros e. exists 0%nat, []. split; [|split; [lia|done]].
    unfold posts. simpl. rewrite !app_nil_r, Nat.add_0_r. by destruct w. }
  unfold classify_paper. intros H.
  do 5 (apply bind_inv in H as [(? & ? & Hl & H)|(? & Hl & ->)];
        apply lift_inv in Hl as [_ ->]; [|by apply Hraise]).
  destruct (request_loop_run paper w) as (n & s & resp & Hrun & Hn & Hs).
  rewrite (bind_ok _ _ _ _ _ Hrun) in H.
  set (w1 := World (heap w) (sent w + n) (trace w ++ posts paper 0 n)) in *.
  assert (classified json_loads paper results w (Ok results) w1) as Hnone.
  { exists n, []. split; [|split; [lia|split; [lia|by left]]].
    subst w1. by rewrite app_nil_r. }
  assert (forall body, analysis_of json_loads paper body w1 = (Ok None, w1)
                       -> bind (analysis_of json_loads paper body)
                            (fun analysis =>
                               ret match analysis with
                                   | Some a => results ++ [a]
                                   | None => results
                                   end) w1 = (Ok results, w1)) as Hskip.
  { intros body Hb. by rewrite (bind_ok _ _ _ _ _ Hb). }
  destruct s.
  - destruct Hs as [body ->]; [done|].
    destruct (analysis_of_spec paper body w1) as [Hb|(v & js & Hjs & Hv & Hb)].
    + rewrite (Hskip _ Hb) in H. injection H as <- <-. exact Hnone.
    + rewrite (bind_ok _ _ _ _ _ Hb) in H. injection H as <- <-.
      exists n, [annotate paper v]. split; [done|]. split; [lia|]. split; [lia|].
      right. exists v, js. done.
  - destruct resp as [[? ?]|]; injection H as <- <-; exact Hnone.
Qed.

(** The loop over the papers: new records at the end of the store,
    each made from one of the papers; requests for a prefix of the
    papers, one to three for each; and, if the loop ends, one new
    address in [results] for each new record. *)
Lemma classify_loop_spec (papers : list json) (results : list loc) (w w' : world)
    (r : res (list loc)) :
  mfold (classify_paper json_loads net) results papers w = (r, w') ->
  exists new counts,
    w' = World (heap w ++ new) (sent w + length (loop_trace counts))
           (trace w ++ loop_trace counts)
    /\ Forall (produced json_loads papers) new
    /\ counts.*1 `prefix_of` papers
    /\ Forall (fun c => 1 <= snd c <= 3)%nat counts
    /\ forall results', r = Ok results' ->
         results' = results ++ seq (length (heap w)) (length new)
         /\ counts.*1 = papers.
Proof.
  revert results w. induction papers as [|paper papers IH]; intros results w; simpl.
  - intros [= <- <-]. exists [], []. simpl.
    split; [rewrite !app_nil_r, Nat.add_0_r; by destruct w|]. split; [constructor|]. split; [done|].
    split; [constructor|]. intros ? [= <-]. by rewrite app_nil_r.
  - intros H. apply bind_inv in H as [(rs1 & w1 & Hc & H)|(e & Hc & ->)].
    + apply classify_paper_spec in Hc as (n & new1 & -> & Hn & Hn1 & Hnew1).
      apply IH in H as (new & counts & -> & Hprod & Hpre & Hcnt & Hres).
      cbn [heap sent trace] in *.
      exists (new1 ++ new), ((paper, n) :: counts).
      rewrite loop_trace_cons, !length_app, length_posts, !app_assoc.
      split; [f_equal; lia|].
      split.
      { apply Forall_app. split.
        - destruct Hnew1 as [[-> _]|(v & js & Hjs & Hv & -> & _)];
            constructor; [|constructor].
          exists paper, v, js. split; [left|done].
        - eapply Forall_impl; [exact Hprod|].
          intros x (p & v & js & Hp & Hjs & Hv & ->).
          exists p, v, js. split; [by right|done]. }
      split; [by apply prefix_cons|].
      split; [constructor; [simpl; lia|done]|].
      intros results' Hr. destruct (Hres _ Hr) as [-> Hall]. split; [|simpl; by f_equal].
      destruct Hnew1 as [[-> ->]|(v & js & _ & _ & -> & ->)]; simpl.
      * by rewrite app_nil_r.
      * rewrite <- app_assoc. simpl. rewrite length_app. simpl.
        by rewrite Nat.add_1_r.
    + apply classify_paper_spec in Hc as (n & new1 & -> & Hn & -> & ->).
      exists [], []. simpl. unfold posts. simpl. rewrite !app_nil_r, Nat.add_0_r.
      split; [done|]. split; [constructor|]. split; [apply prefix_nil|].
      split; [constructor|]. discriminate.
Qed.
End Classify.

(** ** analyze_papers.py: after the loop *)

Lemma load_bind_inv {B} (l : loc) (k : json -> M B) (w w' : world) (r : res B) :
  bind (load l) k w = (r, w') ->
  (exists p, heap w !! l = Some p /\ k p w = (r, w'))
  \/ (heap w !! l = None /\ w' = w /\ r = Raise IndexError).
Proof.
  unfold bind, load. destruct (heap w !! l) as [p|]; simpl.
  - left. eauto.
  - intros [= <- <-]. by right.
Qed.

Lemma StronglySorted_impl_elem {A} (R R' : A -> A -> Prop) (l : list A) :
  (forall x y, x ∈ l -> y ∈ l -> R x y -> R' x y) ->
  StronglySorted R l -> StronglySorted R' l.
Proof.
  intros HR Hs. induction Hs as [|x l Hs IH Hall]; [constructor|].
  constructor.
  - apply IH. intros a b Ha Hb. apply HR; by right.
  - apply Forall_forall. intros y Hy. apply HR; [by left|by right|].
    by eapply Forall_forall in Hall.
Qed.

Lemma StronglySorted_Forall2 {A B} (R : A -> A -> Prop) (R' : B -> B -> Prop)
    (Q : A -> B -> Prop) (l : list A) (k : list B) :
  (forall x y a b, R x y -> Q x a -> Q y b -> R' a b) ->
  StronglySorted R l -> Forall2 Q l k -> StronglySorted R' k.
Proof.
  intros HR Hs. revert k. induction Hs as [|x l Hs IH Hall]; intros k Hk.
  - apply Forall2_nil_inv_l in Hk as ->. constructor.
  - apply Forall2_cons_inv_l in Hk as (a & k' & Hxa & Hk' & ->).
    constructor; [by apply IH|].
    clear IH Hs. induction Hk' as [|y b l k' Hyb _ IH]; [constructor|].
    apply Forall_cons in Hall as [Hxy Hall]. constructor; [|by apply IH].
    by eapply HR.
Qed.

Lemma StronglySorted_take {A} (R : A -> A -> Prop) (n : nat) (l : list A) :
  StronglySorted R l -> StronglySorted R (take n l).
Proof.
  intros Hs. rewrite <- (take_drop n l) in Hs.
  by apply StronglySorted_app_1_l in Hs.
Qed.

(** The comprehension of line 222 reads the records and keeps the
    references whose record is relevant. *)
Lemma relevant_papers_spec (results : list loc) (w w' : world) (r : res (list loc)) :
  mfilter (fun l => p <- load l ;; lift (is_relevant p)) results w = (r, w') ->
  w' = w
  /\ forall relevant, r = Ok relevant ->
       Forall (fun l => l ∈ results
                        /\ exists p, heap w !! l = Some p /\ is_relevant p = Ok true)
         relevant
       /\ Forall (fun l => exists p, heap w !! l = Some p /\ is_dict p) results.
Proof.
  revert r w'. induction results as [|l results IH]; intros r w'; simpl.
  - intros [= <- <-]. split; [done|]. intros ? [= <-]. split; constructor.
  - intros H. apply bind_inv in H as [(b & w1 & Hb & H)|(e & Hb & ->)].
    + apply load_bind_inv in Hb as [(p & Hp & Hb)|(_ & _ & [=])].
      apply lift_inv in Hb as [Hb ->].
      apply bind_inv in H as [(rs & w2 & Hrs & H)|(e & Hrs & ->)].
      * destruct (IH _ _ Hrs) as [-> Hrel]. injection H as <- <-.
        split; [done|]. intros ? [= <-].
        destruct (Hrel _ eq_refl) as [Hr Hd]. split.
        -- assert (Forall (fun l0 => l0 ∈ l :: results
                      /\ exists p0, heap w !! l0 = Some p0 /\ is_relevant p0 = Ok true) rs)
             as Hr'.
           { eapply Forall_impl; [exact Hr|]. intros x [Hx Hp']. split; [by right|done]. }
           destruct b; [|done]. constructor; [|done]. split; [by left|]. eauto.
        -- constructor; [|done]. exists p. split; [done|].
           destruct p; try discriminate. by eexists.
      * destruct (IH _ _ Hrs) as [-> _]. split; [done|]. discriminate.
    + apply load_bind_inv in Hb as [(p & Hp & Hb)|(_ & -> & _)].
      * apply lift_inv in Hb as [_ ->]. split; [done|]. discriminate.
      * split; [done|]. discriminate.
Qed.

Lemma sort_keys_spec (ls : list loc) (w w' : world) (r : res (list (loc * sort_key))) :
  mmap (fun l => paper <- load l ;; k <- lift (paper_sort_key paper) ;; ret (l, k)) ls w
  = (r, w') ->
  w' = w
  /\ forall keyed, r = Ok keyed ->
       keyed = (fun l => (l, key_at (heap w) l)) <$> ls
       /\ Forall (fun l => exists p k, heap w !! l = Some p /\ paper_sort_key p = Ok k) ls.
Proof.
  revert r w'. induction ls as [|l ls IH]; intros r w'; simpl.
  - intros [= <- <-]. split; [done|]. intros ? [= <-]. split; [done|constructor].
  - intros H. apply bind_inv in H as [(b & w1 & Hb & H)|(e & Hb & ->)].
    + apply load_bind_inv in Hb as [(p & Hp & Hb)|(_ & _ & [=])].
      apply bind_inv in Hb as [(k & w2 & Hk & Hb)|(e & _ & [=])].
      apply lift_inv in Hk as [Hk ->]. injection Hb as <- <-.
      apply bind_inv in H as [(rs & w2 & Hrs & H)|(e & Hrs & ->)].
      * destruct (IH _ _ Hrs) as [-> Hkeys]. injection H as <- <-.
        split; [done|]. intros ? [= <-]. destruct (Hkeys _ eq_refl) as [-> Hall].
        split; [|constructor; eauto].
        simpl. f_equal. unfold key_at. by rewrite Hp, <- Hk.
      * destruct (IH _ _ Hrs) as [-> _]. split; [done|]. discriminate.
    + apply load_bind_inv in Hb as [(p & Hp & Hb)|(_ & -> & _)].
      * apply bind_inv in Hb as [(k & w2 & _ & [=])|(e' & Hk & _)].
        apply lift_inv in Hk as [_ ->]. split; [done|]. discriminate.
      * split; [done|]. discriminate.
Qed.

(** Line 237 reads the records and reorders the references. *)
Lemma sort_papers_spec (ls : list loc) (w w' : world) (r : res (list loc)) :
  sort_papers ls w = (r, w') ->
  w' = w
  /\ forall sorted, r = Ok sorted ->
       sorted ≡ₚ ls
       /\ StronglySorted
            (fun a b => exists pa pb, heap w !! a = Some pa /\ heap w !! b = Some pb
                                      /\ ranked_above pa pb) sorted.
Proof.
  unfold sort_papers. intros H.
  apply bind_inv in H as [(keyed & w1 & Hk & H)|(e & Hk & ->)].
  - apply sort_keys_spec in Hk as [-> Hkeys]. apply lift_inv in H as [-> ->].
    split; [done|]. intros sorted Hs.
    destruct (Hkeys _ eq_refl) as [-> Hall].
    apply py_sort_reverse_spec in Hs as [Hperm Hsorted]. split; [done|].
    eapply StronglySorted_impl_elem; [|exact Hsorted].
    intros a b Ha Hb (ia & ib & Hia & Hib & Hge).
    rewrite Hperm in Ha, Hb.
    destruct (proj1 (Forall_forall _ _) Hall a Ha) as (pa & ka & Hpa & Hka).
    destruct (proj1 (Forall_forall _ _) Hall b Hb) as (pb & kb & Hpb & Hkb).
    exists pa, pb. split; [done|]. split; [done|].
    unfold key_at in Hia, Hib. rewrite Hpa, Hka in Hia. rewrite Hpb, Hkb in Hib.
    exists ka, kb, ia, ib. done.
  - apply sort_keys_spec in Hk as [-> _]. split; [done|]. discriminate.
Qed.

Section Report.
Variable py_str : json -> string.
Variable strftime : string -> string.

(** The part after the loop reads the store and writes files: the
    store and the count of requests stay, the result is the list it
    was given, and what it writes is the file of all records and,
    if some record is relevant, the Markdown report of a selection
    of them. *)
Lemma report_spec (results : list loc) (w w' : world) (r : res (list loc)) :
  report py_str strftime results w = (r, w') ->
  exists T,
    w' = World (heap w) (sent w) (trace w ++ T)
    /\ (T = []
        \/ exists records,
             Forall2 (fun l v => heap w !! l = Some v) results records
             /\ reported py_str strftime records T)
    /\ forall rs, r = Ok rs ->
         rs = results
         /\ Forall (fun l => exists p, heap w !! l = Some p /\ is_dict p) results.
Proof.
  unfold report. intros H.
  assert (w = World (heap w) (sent w) (trace w ++ [])) as Hw.
  { rewrite app_nil_r. by destruct w. }
  apply bind_inv in H as [(records & w1 & Hrec & H)|(e & Hrec & ->)].
  2: { apply mmap_load_inv in Hrec as [-> _]. exists []. split; [done|].
       split; [by left|discriminate]. }
  apply mmap_load_inv in Hrec as [-> Hrecords]. specialize (Hrecords _ eq_refl).
  unfold bind at 1, emit at 1 in H. cbn [heap sent trace] in H.
  set (T1 := [Written AnalysisJson (Records records)]) in *.
  set (w1 := World (heap w) (sent w) (trace w ++ T1)) in *.
  assert (forall e, exists T,
             w1 = World (heap w) (sent w) (trace w ++ T)
             /\ (T = [] \/ exists records,
                    Forall2 (fun l v => heap w !! l = Some v) results records
                    /\ reported py_str strftime records T)
             /\ forall rs, @Raise (list loc) e = Ok rs ->
                  rs = results
                  /\ Forall (fun l => exists p, heap w !! l = Some p /\ is_dict p) results)
    as Hjson.
  { intros e. exists T1. split; [done|]. split; [|discriminate].
    right. exists records. split; [done|]. by left. }
  apply bind_inv in H as [(relevant & w2 & Hrel & H)|(e & Hrel & ->)].
  2: { apply relevant_papers_spec in Hrel as [-> _]. apply Hjson. }
  apply relevant_papers_spec in Hrel as [-> Hrel].
  destruct (Hrel _ eq_refl) as [Hrelevant Hdicts]. clear Hrel.
  change (heap w1) with (heap w) in *.
  destruct relevant as [|l0 relevant0] eqn:Erel.
  { injection H as <- <-. exists T1. split; [done|]. split.
    - right. exists records. split; [done|]. by left.
    - intros ? [= <-]. done. }
  rewrite <- Erel in *. clear Erel l0 relevant0.
  apply bind_inv in H as [(sorted & w2 & Hsort & H)|(e & Hsort & ->)].
  2: { apply sort_papers_spec in Hsort as [-> _]. apply Hjson. }
  apply sort_papers_spec in Hsort as [-> Hsort].
  destruct (Hsort _ eq_refl) as [Hperm Hsorted]. clear Hsort.
  change (heap w1) with (heap w) in *.
  apply bind_inv in H as [(shown & w2 & Hshown & H)|(e & Hshown & ->)].
  2: { apply mmap_load_inv in Hshown as [-> _]. apply Hjson. }
  apply mmap_load_inv in Hshown as [-> Hshown]. specialize (Hshown _ eq_refl).
  change (heap w1) with (heap w) in *.
  assert (selected records shown) as Hsel.
  { split; [|split].
    - apply Forall2_length in Hshown. rewrite <- Hshown, length_take. lia.
    - apply Forall_forall. intros p Hp.
      apply list_elem_of_lookup in Hp as [i Hi].
      destruct (Forall2_lookup_r _ _ _ _ _ Hshown Hi) as (l & Hl & Hlp).
      apply list_elem_of_lookup_2 in Hl. apply elem_of_take in Hl as (j & Hl & _).
      apply list_elem_of_lookup_2 in Hl. rewrite Hperm in Hl.
      destruct (proj1 (Forall_forall _ _) Hrelevant l Hl) as (Hin & p' & Hp' & Hr).
      assert (p' = p) as -> by congruence. split; [|done].
      apply list_elem_of_lookup in Hin as [k Hk].
      destruct (Forall2_lookup_l _ _ _ _ _ Hrecords Hk) as (q & Hq & Hlq).
      assert (q = p) as -> by congruence. by eapply list_elem_of_lookup_2.
    - eapply StronglySorted_Forall2; [|apply StronglySorted_take, Hsorted|exact Hshown].
      intros x y a b (pa & pb & Hpa & Hpb & Hr) Hxa Hyb. simpl in *. congruence. }
  destruct (markdown_report py_str strftime shown) as [chunks e] eqn:Emd.
  unfold bind at 1, emit at 1 in H. subst w1. cbn [heap sent trace] in H.
  set (T2 := T1 ++ [Written MarkdownReport (Chunks chunks)]) in *.
  assert (exists T,
             World (heap w) (sent w) ((trace w ++ T1) ++ [Written MarkdownReport (Chunks chunks)])
             = World (heap w) (sent w) (trace w ++ T)
             /\ (T = [] \/ exists records,
                    Forall2 (fun l v => heap w !! l = Some v) results records
                    /\ reported py_str strftime records T)) as Hmd.
  { exists T2. split; [by rewrite <- app_assoc|].
    right. exists records. split; [done|]. right. exists shown. split; [done|].
    by rewrite Emd. }
  destruct Hmd as (T & HT & Hrep). rewrite HT in H. clear HT.
  set (w3 := World (heap w) (sent w) (trace w ++ T)) in *.
  apply bind_inv in H as [(? & w4 & Hre & H)|(e' & Hre & ->)].
  2: { destruct e; [injection Hre as <- <-|discriminate].
       exists T. split; [done|]. split; [done|discriminate]. }
  destruct e; [discriminate|]. injection Hre as <- <-.
  apply bind_inv in H as [(top & w4 & Htop & H)|(e' & Htop & ->)].
  2: { apply mmap_load_inv in Htop as [-> _].
       exists T. split; [done|]. split; [done|discriminate]. }
  apply mmap_load_inv in Htop as [-> _].
  apply bind_inv in H as [(? & w4 & Hc & H)|(e' & Hc & ->)].
  2: { apply lift_inv in Hc as [_ ->].
       exists T. split; [done|]. split; [done|discriminate]. }
  apply lift_inv in Hc as [_ ->]. injection H as <- <-.
  exists T. split; [done|]. split; [done|]. intros ? [= <-]. done.
Qed.
End Report.

(** ** Dictionaries *)

Lemma dget_dset_eq (k : string) (v : json) (d : dict) : dget k (dset k v d) = Some v.
Proof.
  induction d as [|[k' v'] d IH]; simpl.
  - by rewrite String.eqb_refl.
  - destruct (String.eqb k k') eqn:E; simpl; rewrite E; [done|exact IH].
Qed.

Lemma dget_dset_ne (k k' : string) (v : json) (d : dict) :
  k <> k' -> dget k (dset k' v d) = dget k d.
Proof.
  intros Hne. induction d as [|[k0 v0] d IH]; simpl.
  - by apply String.eqb_neq in Hne as ->.
  - destruct (String.eqb k' k0) eqn:E; simpl.
    + apply String.eqb_eq in E as <-. by apply String.eqb_neq in Hne as ->.
    + by rewrite IH.
Qed.

Lemma dget_ensure_eq (k : string) (v : json) (d : dict) :
  dget k (ensure k v d) = Some (dget_default k v d).
Proof.
  unfold ensure, dmem, dget_default.
  destruct (dget k d) eqn:E; [exact E|apply dget_dset_eq].
Qed.

Lemma dget_ensure_ne (k k' : string) (v : json) (d : dict) :
  k <> k' -> dget k (ensure k' v d) = dget k d.
Proof. intros Hne. unfold ensure. destruct (dmem k' d); [done|by apply dget_dset_ne]. Qed.

Lemma dget_default_ensure_ne (k k' : string) (v v' : json) (d : dict) :
  k <> k' -> dget_default k v (ensure k' v' d) = dget_default k v d.
Proof. intros Hne. unfold dget_default. by rewrite dget_ensure_ne. Qed.

Lemma dget_default_dset_ne (k k' : string) (v v' : json) (d : dict) :
  k <> k' -> dget_default k v (dset k' v' d) = dget_default k v d.
Proof. intros Hne. unfold dget_default. by rewrite dget_dset_ne. Qed.

Create Rewrite HintDb dict.
#[local] Hint Rewrite dget_dset_eq dget_ensure_eq : dict.
#[local] Hint Rewrite dget_dset_ne dget_ensure_ne dget_default_ensure_ne
  dget_default_dset_ne using discriminate : dict.

(** ** The fields of an assessment *)

Lemma annotate_dict (paper info : json) (d : dict) :
  paper_info paper = Ok info ->
  annotate paper (JObj d) = JObj (ensure_fields (dset "paper" info d)).
Proof. unfold annotate. by intros ->. Qed.



Lemma ensure_fields_paper (info : json) (d : dict) :
  dget "paper" (ensure_fields (dset "paper" info d)) = Some info.
Proof. unfold ensure_fields. by autorewrite with dict. Qed.

Lemma paper_info_of_article (p : json) :
  article_like p ->
  exists info, paper_info p = Ok (JObj info)
               /\ Forall (fun k => dmem k info = true) PAPER_INFO_FIELDS.
Proof.
  intros (d & -> & Hd). unfold paper_info, py_getitem.
  rewrite Forall_forall in Hd.
  assert (forall k, k ∈ ARTICLE_FIELDS -> exists v, dget k d = Some v) as Hget.
  { intros k Hk. specialize (Hd k Hk). unfold dmem in Hd.
    destruct (dget k d); [eauto|discriminate]. }
  destruct (Hget "pubmed_id") as [v1 ->]; [in_list|].
  destruct (Hget "title") as [v2 ->]; [in_list|].
  destruct (Hget "url") as [v3 ->]; [in_list|].
  destruct (Hget "journal") as [v4 ->]; [in_list|].
  destruct (Hget "publication_date") as [v5 ->]; [in_list|].
  simpl. eexists. split; [reflexivity|]. repeat constructor.
Qed.


(** ** analyze_papers.py: the papers that are analysed *)

Lemma nonblank_abstract_spec (p : json) :
  nonblank_abstract p = true <->
  exists d s, p = JObj d /\ dget "abstract" d = Some (JStr s) /\ blank s = false.
Proof.
  unfold nonblank_abstract, has_abstract, py_getitem. split.
  - destruct p as [| | | | | |d]; try discriminate.
    destruct (dget "abstract" d) as [[| | | |s| |]|] eqn:E; try discriminate.
    simpl. rewrite py_strip_empty. destruct (blank s) eqn:Eb; [discriminate|].
    intros _. by exists d, s.
  - intros (d & s & -> & -> & Hb). simpl. by rewrite py_strip_empty, Hb.
Qed.

Lemma res_filter_has_abstract (items kept : list json) :
  res_filter has_abstract items = Ok kept ->
  kept = filter (fun p => nonblank_abstract p = true) items.
Proof.
  revert kept. induction items as [|p items IH]; intros kept; simpl.
  - by intros [= <-].
  - destruct (has_abstract p) as [b|] eqn:E; [|discriminate]. simpl.
    destruct (res_filter has_abstract items) as [rs|]; [|discriminate]. simpl.
    intros [= <-]. rewrite (IH rs eq_refl), filter_cons.
    assert (nonblank_abstract p = b) as Hb.
    { unfold nonblank_abstract. rewrite E. by destruct b. }
    case_decide; destruct b; congruence.
Qed.

Lemma py_slice_to_prefix {A} (n : Z) (l : list A) : py_slice_to n l `prefix_of` l.
Proof. unfold py_slice_to. destruct (0 <=? n); apply prefix_take. Qed.

Lemma py_slice_to_length {A} (n : Z) (l : list A) :
  0 <= n -> (length (py_slice_to n l) <= Z.to_nat n)%nat.
Proof.
  intros Hn. unfold py_slice_to. apply Z.leb_le in Hn as ->.
  rewrite length_take. lia.
Qed.

(** The papers handed to the loop are a prefix of the papers with a
    non-blank abstract: all of them, or those that [max_papers]
    leaves. *)
Lemma select_papers_spec (papers : json) (max_papers : option Z) (sel : list json) :
  select_papers papers max_papers = Ok (Some sel) ->
  sel = match max_papers with
        | Some n => py_slice_to n (with_abstracts papers)
        | None => with_abstracts papers
        end.
Proof.
  unfold select_papers, with_abstracts.
  destruct (truthy papers); [|discriminate]. simpl.
  destruct (py_len papers); [|discriminate]. simpl.
  destruct (py_iter papers) as [items|]; [|discriminate]. simpl.
  destruct (res_filter has_abstract items) as [kept|] eqn:E; [|discriminate]. simpl.
  apply res_filter_has_abstract in E as <-.
  destruct kept; [discriminate|]. by intros [= <-].
Qed.

Lemma select_papers_prefix (papers : json) (max_papers : option Z) (sel : list json) :
  select_papers papers max_papers = Ok (Some sel) ->
  sel `prefix_of` with_abstracts papers.
Proof.
  intros ->%select_papers_spec. destruct max_papers; [apply py_slice_to_prefix|done].
Qed.

(** Without a paper with a non-blank abstract nothing is selected. *)
Lemma select_papers_none (items : list json) (max_papers : option Z) :
  Forall (fun p => has_abstract p = Ok false) items ->
  select_papers (JArr items) max_papers = Ok None.
Proof.
  intros Hall. unfold select_papers. destruct items as [|p items]; [done|].
  cbn [truthy negb py_len py_iter res_bind].
  assert (res_filter has_abstract (p :: items) = Ok []) as ->; [|done].
  induction Hall as [|q l Hq _ IH]; simpl; [done|]. by rewrite Hq, IH.
Qed.

Lemma loop_trace_posts (counts : list (json * nat)) (e : event) :
  e ∈ loop_trace counts ->
  exists paper n k, e = Post paper k /\ (paper, n) ∈ counts /\ (1 <= k <= n)%nat.
Proof.
  unfold loop_trace. intros He. apply list_elem_of_bind in He as ([p n] & He & Hc).
  unfold posts in He. apply list_elem_of_fmap in He as (i & -> & Hi).
  apply elem_of_seq in Hi. simpl in Hi.
  exists p, n, (S i). simpl. split; [done|]. split; [done|lia].
Qed.

Lemma fresh_objects_inv (h new records : list json) :
  Forall2 (fun l v => (h ++ new) !! l = Some v) (seq (length h) (length new)) records ->
  records = new.
Proof.
  intros H. pose proof (fresh_objects h new) as H'.
  apply list_eq. intros i.
  destruct (records !! i) as [v|] eqn:Ev.
  - destruct (Forall2_lookup_r _ _ _ _ _ H Ev) as (l & Hl & Hv).
    destruct (Forall2_lookup_l _ _ _ _ _ H' Hl) as (v' & Hv' & Hlv). congruence.
  - apply lookup_ge_None in Ev. symmetry. apply lookup_ge_None.
    apply Forall2_length in H. rewrite length_seq in H. lia.
Qed.

Section Run.
Variable json_loads : string -> option json.
Variable py_str : json -> string.
Variable strftime : string -> string.
Variable net : nat -> attempt.

(** A run of [analyze_papers_with_gemini], by what line 38 to 57
    select: the store grows by the records made in the loop, the
    requests are those of the loop, and the files are written from
    those records after it. *)
Lemma analyze_spec (papers : json) (max_papers : option Z) (w w' : world)
    (r : res (list loc)) :
  analyze_papers_with_gemini json_loads py_str strftime net papers max_papers w
  = (r, w') ->
  match select_papers papers max_papers with
  | Raise e => r = Raise e /\ w' = w
  | Ok None => r = Ok [] /\ w' = w
  | Ok (Some sel) =>
      exists new counts T,
        w' = World (heap w ++ new) (sent w + length (loop_trace counts))
               (trace w ++ loop_trace counts ++ T)
        /\ Forall (produced json_loads sel) new
        /\ counts.*1 `prefix_of` sel
        /\ Forall (fun c => 1 <= snd c <= 3)%nat counts
        /\ (T = [] \/ reported py_str strftime new T)
        /\ forall results, r = Ok results ->
             results = seq (length (heap w)) (length new)
             /\ counts.*1 = sel
             /\ Forall is_dict new
  end.
Proof.
  unfold analyze_papers_with_gemini. intros H.
  apply bind_inv in H as [(selected & w1 & Hsel & H)|(e & Hsel & ->)];
    apply lift_inv in Hsel as [<- ->]; [|done].
  destruct selected as [sel|]; [|by injection H as <- <-].
  apply bind_inv in H as [(results & w1 & Hloop & H)|(e & Hloop & ->)].
  - apply classify_loop_spec in Hloop as (new & counts & -> & Hprod & Hpre & Hcnt & Hres).
    destruct (Hres _ eq_refl) as [-> Hall]. simpl in H.
    apply report_spec in H as (T & -> & HT & Hr). cbn [heap sent trace] in *.
    exists new, counts, T. rewrite <- app_assoc.
    split; [done|]. split; [done|]. split; [done|]. split; [done|].
    split.
    + destruct HT as [->|(records & Hrec & HT)]; [by left|right].
      by apply fresh_objects_inv in Hrec as ->.
    + intros rs Hrs. destruct (Hr _ Hrs) as [-> Hd]. split; [done|]. split; [done|].
      apply Forall_forall. intros p Hp.
      apply list_elem_of_lookup in Hp as [i Hi].
      destruct (Forall2_lookup_r _ _ _ _ _ (fresh_objects (heap w) new) Hi)
        as (l & Hl & Hp).
      apply list_elem_of_lookup_2 in Hl.
      destruct (proj1 (Forall_forall _ _) Hd l Hl) as (p' & Hp' & Hdict).
      assert (Some p' = Some p) as [= ->] by exact (eq_trans (eq_sym Hp') Hp).
      exact Hdict.
  - apply classify_loop_spec in Hloop as (new & counts & -> & Hprod & Hpre & Hcnt & Hres).
    exists new, counts, []. rewrite app_nil_r.
    split; [done|]. split; [done|]. split; [done|]. split; [done|].
    split; [by left|discriminate].
Qed.

End Run.

(** ** The run on two articles *)



(** ** The records of the assessment *)









(** ** Records stay as they are *)

Lemma lookup_extended (h new : list json) (l : loc) (v : json) :
  h !! l = Some v -> (h ++ new) !! l = Some v.
Proof. intros H. rewrite lookup_app_l; [done|]. by eapply lookup_lt_Some. Qed.

(** C7: once a record is in [results], the rest of the function
    leaves it as it is: from any point of the loop over the papers,
    the remaining iterations followed by the saving, the sorting, the
    Markdown report and the console output leave every object of the
    store unchanged; the part after the loop changes nothing in the
    store at all; and [convert_json_to_csv] only adds the records it
    loads to the store, as loaded. *)
Theorem records_unchanged_once_produced :
  (forall json_loads py_str strftime net results rest w r w',
      bind (mfold (classify_paper json_loads net) results rest)
        (report py_str strftime) w = (r, w') ->
      forall l v, heap w !! l = Some v -> heap w' !! l = Some v)
  /\ (forall py_str strftime results w r w',
         report py_str strftime results w = (r, w') -> heap w' = heap w)
  /\ (forall loaded csv_file w r w',
         convert_json_to_csv loaded csv_file w = (r, w') ->
         exists items, heap w' = heap w ++ items
                       /\ (items = [] \/ py_iter loaded = Ok items)).
Proof.
  split; [|split].
  - intros json_loads py_str strftime net results rest w r w' H l v Hl.
    apply bind_inv in H as [(rs & w1 & Hloop & H)|(e & Hloop & ->)].
    + apply classify_loop_spec in Hloop as (new & counts & -> & _).
      apply report_spec in H as (T & -> & _). simpl. by apply lookup_extended.
    + apply classify_loop_spec in Hloop as (new & counts & -> & _).
      simpl. by apply lookup_extended.
  - intros py_str strftime results w r w' H.
    by apply report_spec in H as (T & -> & _).
  - intros loaded csv_file w r w' H.
    destruct (convert_json_to_csv_store loaded csv_file w) as (items & Hh & Hi).
    rewrite H in Hh. eauto.
Qed.

(** In the run on two articles the first record is at the end what
    it was when the first iteration appended it. *)
Lemma records_unchanged_once_produced_witness :
  heap (snd sample_run) !! 0%nat = Some (annotate sample_paper judged_value).
Proof.
  apply (proj1 records_unchanged_once_produced loads_sample str_of_scalar sample_date
           sample_net [0%nat] [second_paper]
           (snd (classify_paper loads_sample sample_net [] sample_paper empty_world))
           (fst sample_run) (snd sample_run)).
  - vm_compute. reflexivity.
  - vm_compute. reflexivity.
Defined.

(** ** Papers without an abstract *)

Lemma reported_written (py_str : json -> string) (strftime : string -> string)
    (records : list json) (T : list event) :
  T = [] \/ reported py_str strftime records T ->
  Forall (fun e => exists f c, e = Written f c) T.
Proof.
  intros [->|[->|(shown & _ & ->)]]; repeat constructor; by eexists _, _.
Qed.

(** C9: the requests of a run are those of the loop over the papers,
    [loop_trace counts]: one to three for each paper of a prefix of
    the papers with a non-blank abstract, in their order, and, with
    [max_papers] not below zero, for at most that many papers; every
    paper of a request has an abstract that is a string with more
    than whitespace in it; and when the input is a list of papers
    whose abstracts are all blank, the function returns the empty
    list and does nothing else. *)
Theorem blank_abstracts_are_never_sent
    (json_loads : string -> option json) (py_str : json -> string)
    (strftime : string -> string) (net : nat -> attempt)
    (papers : json) (max_papers : option Z) (w w' : world) (r : res (list loc)) :
  analyze_papers_with_gemini json_loads py_str strftime net papers max_papers w
  = (r, w') ->
  (exists counts T,
      trace w' = trace w ++ loop_trace counts ++ T
      /\ sent w' = (sent w + length (loop_trace counts))%nat
      /\ Forall (fun e => forall paper k, e <> Post paper k) T
      /\ counts.*1 `prefix_of` with_abstracts papers
      /\ (forall n, max_papers = Some n -> 0 <= n -> (length counts <= Z.to_nat n)%nat)
      /\ Forall (fun c => (1 <= snd c <= 3)%nat
                          /\ exists d s, fst c = JObj d
                                         /\ dget "abstract" d = Some (JStr s)
                                         /\ blank s = false) counts
      /\ forall paper k, Post paper k ∈ loop_trace counts ++ T ->
           exists d s, paper = JObj d /\ dget "abstract" d = Some (JStr s)
                       /\ blank s = false)
  /\ (forall items, papers = JArr items ->
        Forall (fun p => has_abstract p = Ok false) items ->
        r = Ok [] /\ w' = w).
Proof.
  intros H. apply analyze_spec in H. split.
  - destruct (select_papers papers max_papers) as [[sel|]|] eqn:Esel.
    + destruct H as (new & counts & T & -> & _ & Hpre & Hcnt & HT & _).
      exists counts, T. cbn [heap sent trace].
      pose proof (select_papers_prefix _ _ _ Esel) as Hsel.
      assert (counts.*1 `prefix_of` with_abstracts papers) as Hpre'.
      { by etrans. }
      assert (Forall (fun e => forall paper k, e <> Post paper k) T) as Hfiles.
      { eapply Forall_impl; [exact (reported_written _ _ _ _ HT)|].
        intros e (f & c & ->) paper k. discriminate. }
      assert (forall c, c ∈ counts ->
                exists d s, fst c = JObj d /\ dget "abstract" d = Some (JStr s)
                            /\ blank s = false) as Hnonblank.
      { intros c Hc. apply nonblank_abstract_spec.
        assert (fst c ∈ with_abstracts papers) as Hin.
        { destruct Hpre' as [rest ->]. apply elem_of_app. left.
          by apply list_elem_of_fmap_2. }
        unfold with_abstracts in Hin.
        destruct (py_iter papers); [|by apply elem_of_nil in Hin].
        by apply list_elem_of_filter in Hin as [Hin _]. }
      split; [done|]. split; [done|]. split; [done|]. split; [done|]. split.
      { intros n -> Hn. apply select_papers_spec in Esel. subst sel.
        apply prefix_length in Hpre. rewrite length_fmap in Hpre.
        pose proof (py_slice_to_length n (with_abstracts papers) Hn). lia. }
      split.
      { apply Forall_forall. intros c Hc. split; [|by apply Hnonblank].
        by apply (proj1 (Forall_forall _ _) Hcnt). }
      intros paper k Hin. apply elem_of_app in Hin as [Hin|Hin].
      * apply loop_trace_posts in Hin as (p & n & k' & [= -> ->] & Hc & _).
        by apply (Hnonblank (p, n)).
      * by destruct (proj1 (Forall_forall _ _) Hfiles _ Hin paper k).
    + destruct H as [-> ->]. exists [], []. simpl. rewrite app_nil_r.
      split; [done|]. split; [lia|]. split; [constructor|]. split; [apply prefix_nil|].
      split; [intros; simpl; lia|]. split; [constructor|].
      intros paper k Hin. by apply elem_of_nil in Hin.
    + destruct H as [-> ->]. exists [], []. simpl. rewrite app_nil_r.
      split; [done|]. split; [lia|]. split; [constructor|]. split; [apply prefix_nil|].
      split; [intros; simpl; lia|]. split; [constructor|].
      intros paper k Hin. by apply elem_of_nil in Hin.
  - intros items -> Hall. by rewrite (select_papers_none _ _ Hall) in H.
Qed.

Lemma blank_abstracts_are_never_sent_witness :
  (exists counts T,
      trace (snd sample_run) = [] ++ loop_trace counts ++ T
      /\ sent (snd sample_run) = (0 + length (loop_trace counts))%nat
      /\ Forall (fun e => forall paper k, e <> Post paper k) T
      /\ counts.*1 `prefix_of` with_abstracts sample_papers
      /\ (forall n, @None Z = Some n -> 0 <= n -> (length counts <= Z.to_nat n)%nat)
      /\ Forall (fun c => (1 <= snd c <= 3)%nat
                          /\ exists d s, fst c = JObj d
                                         /\ dget "abstract" d = Some (JStr s)
                                         /\ blank s = false) counts
      /\ forall paper k, Post paper k ∈ loop_trace counts ++ T ->
           exists d s, paper = JObj d /\ dget "abstract" d = Some (JStr s)
                       /\ blank s = false)
  /\ (forall items, sample_papers = JArr items ->
        Forall (fun p => has_abstract p = Ok false) items ->
        fst sample_run = Ok [] /\ snd sample_run = empty_world).
Proof.
  apply (blank_abstracts_are_never_sent loads_sample str_of_scalar sample_date sample_net
           sample_papers None empty_world (snd sample_run) (fst sample_run)).
  vm_compute. reflexivity.
Defined.

(** The papers with an abstract in the run on two articles. *)
Lemma sample_with_abstracts : with_abstracts sample_papers = [sample_paper; second_paper].
Proof. reflexivity. Qed.

(** ** The Markdown report *)



(** In the run with three relevant papers the report lists the score
    9 first, then of the two scores 7 the one with revolutionary
    aspects, then the large trial. *)
Lemma ranked_report_order :
  fst ranked_run = Ok [0%nat; 1%nat; 2%nat]
  /\ (fun chunks => take 3 (drop 4 chunks)) <$> report_of (snd ranked_run)
     = [["1. [Risk scores in primary care](#1) " +:+ nl;
         "2. [Shared decisions in oncology](#2) " +:+ nl;
         "3. [Screening at scale](#3) " +:+ nl]].
Proof. split; vm_compute; reflexivity. Qed.

(** Integers, booleans and floats are ordered together as numbers,
    and equal keys keep their order. *)
Lemma sort_numbers_example :
  py_sort_reverse
    [(1%nat, (JFloat (17 # 2), 0, 0)); (2%nat, (JInt 9, 0, 0)); (3%nat, (JBool true, 1, 1));
     (4%nat, (JInt 9, 0, 0)); (5%nat, (JFloat 9, 0, 1))]
  = Ok [5%nat; 2%nat; 4%nat; 1%nat; 3%nat].
Proof. reflexivity. Qed.

(** The report of the run on two articles has one entry, for the one
    relevant record. *)
Lemma sample_report_written :
  Written MarkdownReport
    (Chunks (fst (markdown_report str_of_scalar sample_date
                    [annotate sample_paper judged_value])))
  ∈ trace (snd sample_run).
Proof. vm_compute. in_list. Qed.

(** ** What the two reports are made of *)



Section Markdown.
Variable py_str : json -> string.
Variable strftime : string -> string.

End Markdown.



(** ** A record with a null title in the analysis *)

(** The record that [search_medical_papers] saves for the article
    with markup in its title stops [analyze_papers_with_gemini] at
    line 64, before any request: [None] cannot be sliced. *)
Lemma null_title_stops_analysis :
  exists paper,
    process_article markup_title_article = Some paper
    /\ analyze_papers_with_gemini loads_sample str_of_scalar sample_date sample_net
         (JArr [JObj paper]) None empty_world
       = (Raise TypeError, empty_world).
Proof. eexists. split; vm_compute; reflexivity. Qed.

(** * Further properties of the code *)

(** ** analyze_papers.py: what a run costs *)

Section Budget.
Variable json_loads : string -> option json.
Variable net : nat -> attempt.

(** The loop sends at most three requests for each paper and stores
    at most one record for each paper it sent a request for. *)
Lemma classify_loop_budget (papers : list json) (results : list loc) (w w' : world)
    (r : res (list loc)) :
  mfold (classify_paper json_loads net) results papers w = (r, w') ->
  (sent w <= sent w' <= sent w + 3 * length papers)%nat
  /\ (length (heap w) <= length (heap w') <= length (heap w) + length papers)%nat
  /\ (length (heap w') - length (heap w) <= sent w' - sent w)%nat
  /\ forall results', r = Ok results' ->
       length results' = (length results + (length (heap w') - length (heap w)))%nat.
Proof.
  revert results w. induction papers as [|paper papers IH]; intros results w; simpl.
  - intros [= <- <-]. repeat split; try lia. intros ? [= <-]. lia.
  - intros H. apply bind_inv in H as [(rs1 & w1 & Hc & H)|(e & Hc & ->)].
    + apply classify_paper_spec in Hc as (n & new1 & -> & Hn & Hn1 & Hnew1).
      apply IH in H as (Hsent & Hheap & Hcost & Hres).
      cbn [heap sent trace] in *. rewrite length_app in *.
      assert (length new1 <= 1 /\ length rs1 = length results + length new1)%nat
        as [Hlen Hrs].
      { destruct Hnew1 as [[-> ->]|(v & js & _ & _ & -> & ->)]; simpl; [lia|].
        rewrite length_app. simpl. lia. }
      repeat split; try lia.
      intros results' Hr. specialize (Hres _ Hr). lia.
    + apply classify_paper_spec in Hc as (n & new1 & -> & Hn & -> & ->).
      cbn [heap sent trace]. rewrite length_app. simpl.
      repeat split; try lia. discriminate.
Qed.
End Budget.

(** X1: the cost of a run is bounded by its input: at most three
    requests for each paper with a non-blank abstract, at most three
    for each of the [max_papers] papers when that bound is given and
    not negative; at most one new record for each request; and the
    list returned is not longer than the list of papers with a
    non-blank abstract. *)
Theorem analyze_request_budget
    (json_loads : string -> option json) (py_str : json -> string)
    (strftime : string -> string) (net : nat -> attempt)
    (papers : json) (max_papers : option Z) (w w' : world) (r : res (list loc)) :
  analyze_papers_with_gemini json_loads py_str strftime net papers max_papers w
  = (r, w') ->
  (sent w <= sent w' <= sent w + 3 * length (with_abstracts papers))%nat
  /\ (forall n, max_papers = Some n -> 0 <= n ->
        (sent w' <= sent w + 3 * Z.to_nat n)%nat)
  /\ (length (heap w') - length (heap w) <= sent w' - sent w)%nat
  /\ forall results, r = Ok results ->
       (length results <= length (with_abstracts papers))%nat
       /\ (length results <= sent w' - sent w)%nat.
Proof.
  unfold analyze_papers_with_gemini. intros H.
  apply bind_inv in H as [(selected & w1 & Hsel & H)|(e & Hsel & ->)];
    apply lift_inv in Hsel as [Hsel ->].
  2: { repeat split; intros; try lia; discriminate. }
  destruct selected as [sel|].
  2: { injection H as <- <-. repeat split; intros; try lia;
       match goal with Hr : Ok _ = Ok _ |- _ => injection Hr as <- end; simpl; lia. }
  symmetry in Hsel.
  pose proof (select_papers_prefix _ _ _ Hsel) as Hpre.
  apply prefix_length in Hpre.
  assert (forall n, max_papers = Some n -> 0 <= n -> (length sel <= Z.to_nat n)%nat)
    as Hmax.
  { intros n -> Hn. apply select_papers_spec in Hsel as ->.
    by apply py_slice_to_length. }
  assert (exists r1 w1, mfold (classify_paper json_loads net) [] sel w = (r1, w1)
                        /\ heap w' = heap w1 /\ sent w' = sent w1
                        /\ forall results, r = Ok results -> r1 = Ok results)
    as (r1 & w1 & Hloop & Hheap & Hsent & Hres).
  { apply bind_inv in H as [(results & w1 & Hloop & H)|(e & Hloop & ->)].
    - exists (Ok results), w1. split; [done|].
      apply report_spec in H as (T & -> & _ & Hr). simpl.
      split; [done|]. split; [done|]. intros rs Hrs. by destruct (Hr _ Hrs) as [-> _].
    - exists (Raise e), w'. repeat split; try done. }
  apply classify_loop_budget in Hloop as (Hs & Hh & Hcost & Hlen).
  rewrite Hheap, Hsent.
  split; [lia|]. split.
  { intros n Hn Hn0. specialize (Hmax n Hn Hn0). lia. }
  split; [lia|].
  intros results Hr. specialize (Hlen _ (Hres _ Hr)). simpl in Hlen. lia.
Qed.

Lemma analyze_request_budget_witness :
  (sent empty_world <= sent (snd sample_run)
   <= sent empty_world + 3 * length (with_abstracts sample_papers))%nat
  /\ (forall n, @None Z = Some n -> 0 <= n ->
        (sent (snd sample_run) <= sent empty_world + 3 * Z.to_nat n)%nat)
  /\ (length (heap (snd sample_run)) - length (heap empty_world)
      <= sent (snd sample_run) - sent empty_world)%nat
  /\ forall results, fst sample_run = Ok results ->
       (length results <= length (with_abstracts sample_papers))%nat
       /\ (length results <= sent (snd sample_run) - sent empty_world)%nat.
Proof.
  apply (analyze_request_budget loads_sample str_of_scalar sample_date sample_net
           sample_papers None empty_world (snd sample_run) (fst sample_run)).
  vm_compute. reflexivity.
Defined.

(** ** analyze_papers.py: what becomes a record *)


(** ** analyze_papers.py: the JSON text of an answer *)

Lemma split_go_nonempty (sep : string) (skip : nat) (cur s : string) :
  split_go sep skip cur s <> [].
Proof.
  revert skip cur. induction s as [|a s IH]; intros [|k] cur; cbn [split_go];
    try apply IH; try congruence.
  destruct (String.prefix sep (String a s)); [congruence|apply IH].
Qed.

Lemma prefix_cons (a b : ascii) (s1 s2 : string) :
  String.prefix (String a s1) (String b s2)
  = if Ascii.eqb a b then String.prefix s1 s2 else false.
Proof.
  cbn [String.prefix].
  destruct (ascii_dec a b) as [->|Hne]; [by rewrite Ascii.eqb_refl|].
  by destruct (Ascii.eqb_spec a b).
Qed.

Lemma prefix_backtick (sep' : string) (a : ascii) (s : string) :
  Ascii.eqb a "`" = false -> String.prefix (String "`" sep') (String a s) = false.
Proof. intros Ha. by rewrite prefix_cons, Ascii.eqb_sym, Ha. Qed.

Lemma split_go_two (sep : string) (cur s : string) :
  sep <> EmptyString -> str_contains sep s = true ->
  exists a b rest, split_go sep 0 cur s = a :: b :: rest.
Proof.
  intros Hsep. revert cur. induction s as [|c s IH]; intros cur.
  - destruct sep; [done|discriminate].
  - cbn [str_contains split_go].
    destruct (String.prefix sep (String c s)) eqn:E.
    + intros _.
      destruct (split_go sep (String.length sep - 1) EmptyString s) as [|b rest] eqn:Es.
      { by apply split_go_nonempty in Es. }
      by exists cur, b, rest.
    + simpl. apply IH.
Qed.

Lemma append_cons (a : ascii) (s t : string) : String a s +:+ t = String a (s +:+ t).
Proof. reflexivity. Qed.

Lemma append_nil (t : string) : EmptyString +:+ t = t.
Proof. reflexivity. Qed.

Ltac push_append := rewrite ?append_cons, ?append_nil.

Lemma append_assoc (a b c : string) : (a +:+ b) +:+ c = a +:+ (b +:+ c).
Proof. induction a as [|x a IH]; [done|]. push_append. by f_equal. Qed.

Lemma append_empty_r (a : string) : a +:+ EmptyString = a.
Proof. induction a as [|x a IH]; [done|]. push_append. by f_equal. Qed.

(** No separator that starts with a backtick is found in a text
    without backticks. *)
Lemma split_go_plain (sep' cur x rest : string) :
  no_backtick x = true ->
  split_go (String "`" sep') 0 cur (x +:+ rest)
  = split_go (String "`" sep') 0 (cur +:+ x) rest.
Proof.
  revert cur. induction x as [|a x IH]; intros cur; push_append;
    cbn [no_backtick split_go].
  - by rewrite append_empty_r.
  - intros [Ha%negb_true_iff Hx]%andb_prop.
    rewrite prefix_backtick, IH by done. by rewrite append_assoc.
Qed.

Lemma split_go_head (sep cur s : string) :
  exists y, head (split_go sep 0 cur s) = Some (cur +:+ y).
Proof.
  revert cur. induction s as [|a s IH]; intros cur; cbn [split_go].
  - exists EmptyString. by rewrite append_empty_r.
  - destruct (String.prefix sep (String a s)).
    + exists EmptyString. by rewrite append_empty_r.
    + destruct (IH (cur +:+ String a EmptyString)) as [y ->].
      exists (String a y). by rewrite append_assoc.
Qed.

Lemma str_contains_app (sep pre rest : string) :
  str_contains sep (pre +:+ sep +:+ rest) = true.
Proof.
  induction pre as [|a pre IH]; push_append; cbn [str_contains].
  - assert (String.prefix sep (sep +:+ rest) = true) as E.
    { clear. induction sep as [|c sep IH]; [by destruct rest|].
      push_append. by rewrite prefix_cons, Ascii.eqb_refl. }
    push_append. destruct (sep +:+ rest); cbn [str_contains]; by rewrite E.
  - rewrite IH. apply orb_true_r.
Qed.

(** X3: taking the JSON text out of an answer never raises: where
    the answer contains a fence, [split] gives the piece after it. *)
Theorem json_str_of_never_raises (llm_response : string) :
  exists json_str, json_str_of llm_response = Ok json_str.
Proof.
  unfold json_str_of, py_split.
  destruct (str_contains "```json" llm_response) eqn:E.
  - destruct (split_go_two "```json" EmptyString llm_response) as (a & b & rest & ->);
      [done..|].
    simpl. destruct (split_go "```" 0 EmptyString b) as [|x l] eqn:Es.
    { by apply split_go_nonempty in Es. }
    by eexists.
  - destruct (str_contains "```" llm_response) eqn:E'; [|by eexists].
    destruct (split_go_two "```" EmptyString llm_response) as (a & b & rest & ->);
      [done..|].
    by eexists.
Qed.

Lemma split_go_none (sep' cur x : string) :
  no_backtick x = true -> split_go (String "`" sep') 0 cur x = [cur +:+ x].
Proof.
  intros Hx. rewrite <- (append_empty_r x) at 1. by rewrite split_go_plain.
Qed.

Lemma prefix_app (sep rest : string) : String.prefix sep (sep +:+ rest) = true.
Proof.
  induction sep as [|c sep IH]; [by destruct rest|].
  push_append. by rewrite prefix_cons, Ascii.eqb_refl.
Qed.

Lemma split_go_skip (sep x cur rest : string) :
  split_go sep (String.length x) cur (x +:+ rest) = split_go sep 0 cur rest.
Proof.
  induction x as [|a x IH]; push_append; cbn [String.length split_go]; [|done].
  by destruct rest.
Qed.

(** The piece before the first fence, and the rest to split. *)
Lemma split_go_fence (sep' pre rest : string) :
  no_backtick pre = true ->
  split_go (String "`" sep') 0 EmptyString (pre +:+ String "`" sep' +:+ rest)
  = pre :: split_go (String "`" sep') 0 EmptyString rest.
Proof.
  intros Hpre. rewrite split_go_plain by done. push_append. cbn [split_go].
  rewrite <- (append_cons "`" sep' rest), prefix_app. push_append.
  cbn [String.length]. rewrite Nat.sub_succ, Nat.sub_0_r.
  by rewrite split_go_skip.
Qed.

(** X4: an answer that wraps its JSON in a fence opened by three
    backticks and the word json yields the text between the fences,
    stripped, whatever comes before the opening fence and after the
    closing one, as long as neither the text before nor the text
    inside has a backtick and the text after does not start with
    one.  The closing fence may be missing. *)
Theorem json_str_of_fenced (pre inner post : string) :
  no_backtick pre = true -> no_backtick inner = true ->
  String.prefix "`" post = false ->
  json_str_of (pre +:+ "```json" +:+ inner +:+ "```" +:+ post) = Ok (py_strip inner)
  /\ json_str_of (pre +:+ "```json" +:+ inner) = Ok (py_strip inner).
Proof.
  intros Hpre Hinner Hpost.
  unfold json_str_of, py_split. rewrite !str_contains_app.
  rewrite !split_go_fence by done.
  assert (forall (x : string) (l : list string), (x :: l) !! 1%nat = head l) as Hsecond
    by (by intros x []).
  rewrite !Hsecond.
  split.
  - assert (exists y, head (split_go "```json" 0 EmptyString (inner +:+ "```" +:+ post))
                      = Some (inner +:+ y)
                      /\ (y = EmptyString \/ exists y', y = "```" +:+ y'))
      as (y & -> & Hy).
    { rewrite split_go_plain by done. push_append.
      destruct (String.prefix "```json" ("```" +:+ post)) eqn:E.
      - exists EmptyString. push_append. rewrite ?append_cons, ?append_nil in E. cbn [split_go].
        rewrite E. rewrite append_empty_r. split; [done|by left].
      - assert (forall k, String.prefix (String "`" k) post = false) as Hk.
        { intros k. destruct post as [|c post]; [done|].
          rewrite prefix_cons in Hpost |- *. destruct (Ascii.eqb "`" c); [by destruct post|done]. }
        rewrite ?append_cons, ?append_nil in E. push_append. cbn [split_go]. rewrite E.
        rewrite !prefix_cons, !Ascii.eqb_refl, !Hk.
        destruct (split_go_head "```json"
                    (((inner +:+ "`") +:+ "`") +:+ "`") post) as [y' ->].
        exists ("```" +:+ y'). rewrite !append_assoc. push_append.
        split; [done|]. right. by exists y'. }
    cbn [of_option res_bind].
    destruct Hy as [->|[y' ->]].
    + rewrite append_empty_r, split_go_none by done. by push_append.
    + by rewrite split_go_fence.
  - rewrite split_go_none by done. push_append. cbn [head of_option res_bind].
    rewrite split_go_none by done. by push_append.
Qed.

Lemma json_str_of_fenced_witness :
  json_str_of (("Here is the review." +:+ nl) +:+ "```json"
               +:+ (nl +:+ judged_text +:+ nl) +:+ "```" +:+ nl)
  = Ok (py_strip (nl +:+ judged_text +:+ nl))
  /\ json_str_of (("Here is the review." +:+ nl) +:+ "```json"
                  +:+ (nl +:+ judged_text +:+ nl))
     = Ok (py_strip (nl +:+ judged_text +:+ nl)).
Proof. apply json_str_of_fenced; reflexivity. Defined.

(** ** analyze_papers.py: the part after the loop *)



Lemma emit_bind {B} (e : event) (k : unit -> M B) (w : world) :
  bind (emit e) k w = k tt (World (heap w) (sent w) (trace w ++ [e])).
Proof. reflexivity. Qed.







(** ** analyze_papers.py: runs that end well *)

Lemma dmem_dget (k : string) (d : dict) : dmem k d = true -> exists v, dget k d = Some v.
Proof. unfold dmem. destruct (dget k d); [by eexists|discriminate]. Qed.




Section Presentable.
Variable py_str : json -> string.
Variable strftime : string -> string.




End Presentable.





Lemma relevant_of_sub (results : list loc) (records : list json) (l : loc) :
  l ∈ relevant_of results records -> l ∈ results.
Proof.
  unfold relevant_of. intros ([l' p] & -> & Hin)%list_elem_of_fmap.
  apply list_elem_of_filter in Hin as [_ Hin].
  apply list_elem_of_lookup in Hin as [i Hi].
  apply lookup_zip_with_Some in Hi as (x & y & [= <- <-] & Hx & _).
  by eapply list_elem_of_lookup_2.
Qed.





Lemma article_fields (d : dict) :
  is_article d = true ->
  Forall (fun k => dmem k d = true) ARTICLE_FIELDS
  /\ (exists title, dget "title" d = Some (JStr title))
  /\ (exists abstract, dget "abstract" d = Some (JStr abstract)).
Proof.
  unfold is_article. intros [[_ Hs]%andb_prop Hl]%andb_prop.
  cbn [forallb] in Hs.
  repeat (apply andb_prop in Hs as [?Hf Hs]).
  unfold dmem.
  destruct (dget "pubmed_id" d) as [[]|] eqn:E1; try discriminate.
  destruct (dget "title" d) as [[]|] eqn:E2; try discriminate.
  destruct (dget "journal" d) as [[]|] eqn:E3; try discriminate.
  destruct (dget "publication_date" d) as [[]|] eqn:E4; try discriminate.
  destruct (dget "abstract" d) as [[]|] eqn:E5; try discriminate.
  destruct (dget "url" d) as [[]|] eqn:E6; try discriminate.
  destruct (dget "publication_types" d) eqn:E7; try discriminate.
  split; [|by eauto]. unfold ARTICLE_FIELDS.
  repeat (apply Forall_cons_2;
          [cbv beta; by (rewrite E1 || rewrite E2 || rewrite E3 || rewrite E4
                         || rewrite E5 || rewrite E6 || rewrite E7)|]).
  apply Forall_nil_2.
Qed.


Lemma article_promptable (p : json) : article p -> promptable p.
Proof.
  intros (d & -> & Hd). apply article_fields in Hd as (Hall & [title Ht] & _).
  exists d, (JStr title). split; [done|]. split; [done|]. split; [done|].
  rewrite Forall_forall in Hall. repeat split; apply Hall; in_list.
Qed.

Lemma article_has_abstract (p : json) : article p -> exists b, has_abstract p = Ok b.
Proof.
  intros (d & -> & Hd). apply article_fields in Hd as (_ & _ & [abstract Ha]).
  unfold has_abstract. cbn [py_getitem]. rewrite Ha. by eexists.
Qed.

Lemma res_filter_ok {A} (f : A -> res bool) (l : list A) :
  Forall (fun a => exists b, f a = Ok b) l ->
  exists kept, res_filter f l = Ok kept /\ kept ⊆ l.
Proof.
  induction 1 as [|a l [b Hb] _ (kept & IH & Hsub)]; [by exists []|].
  cbn [res_filter]. rewrite Hb, IH. cbn [res_bind].
  eexists. split; [done|]. intros x Hx. destruct b.
  - apply elem_of_cons in Hx as [->|Hx]; [by left|right; by apply Hsub].
  - right. by apply Hsub.
Qed.

Lemma select_papers_ok (items : list json) (max_papers : option Z) :
  Forall article items ->
  exists o, select_papers (JArr items) max_papers = Ok o
            /\ forall sel, o = Some sel -> Forall article sel.
Proof.
  intros Hitems. unfold select_papers.
  destruct items as [|p items]; [by exists None|].
  cbn [truthy negb py_len py_iter res_bind].
  destruct (res_filter_ok has_abstract (p :: items)) as (kept & -> & Hsub).
  { eapply Forall_impl; [exact Hitems|apply article_has_abstract]. }
  cbn [res_bind].
  assert (Forall article kept) as Hkept.
  { apply Forall_forall. intros q Hq. eapply Forall_forall in Hitems; [done|].
    by apply Hsub. }
  destruct kept as [|q kept]; [by exists None|].
  eexists. split; [done|]. intros sel [= <-].
  destruct max_papers as [n|]; [|done].
  eapply Forall_forall. intros x Hx.
  eapply Forall_forall in Hkept; [done|].
  by eapply elem_of_prefix; [|apply py_slice_to_prefix].
Qed.

Lemma lift_bind {A B} (x : A) (k : A -> M B) (w : world) :
  bind (lift (Ok x)) k w = k x w.
Proof. reflexivity. Qed.







(** ** analyze_papers.py: the bound on the number of papers *)

(** X9: with [max_papers] equal to 0 the bound is taken as given,
    not as absent: when some paper has a non-blank abstract, no
    request is sent, the JSON results are written as the empty list,
    no Markdown report is written and the empty list is returned. *)
Theorem analyze_max_zero
    (json_loads : string -> option json) (py_str : json -> string)
    (strftime : string -> string) (net : nat -> attempt)
    (papers : json) (sel : list json) (w : world) :
  select_papers papers None = Ok (Some sel) ->
  analyze_papers_with_gemini json_loads py_str strftime net papers (Some 0) w
  = (Ok [], World (heap w) (sent w) (trace w ++ [Written AnalysisJson (Records [])])).
Proof.
  intros H. unfold analyze_papers_with_gemini.
  assert (select_papers papers (Some 0) = Ok (Some [])) as ->; [|done].
  unfold select_papers in *.
  destruct (negb (truthy papers)); [discriminate|].
  destruct (py_len papers); [|discriminate]. cbn [res_bind] in *.
  destruct (py_iter papers) as [items|]; [|discriminate]. cbn [res_bind] in *.
  destruct (res_filter has_abstract items) as [[|p kept]|]; try discriminate. done.
Qed.

Lemma analyze_max_zero_witness :
  analyze_papers_with_gemini loads_sample str_of_scalar sample_date sample_net
    sample_papers (Some 0) empty_world
  = (Ok [], World (heap empty_world) (sent empty_world)
              (trace empty_world ++ [Written AnalysisJson (Records [])])).
Proof.
  apply (analyze_max_zero loads_sample str_of_scalar sample_date sample_net
           sample_papers [sample_paper; second_paper] empty_world).
  reflexivity.
Defined.

(** ** search_medical_papers.py: what a search returns and saves *)

Lemma nullable_json_of_text (t : option string) : nullable_str (json_of_text t).
Proof. destruct t; [right; by eexists|by left]. Qed.

Lemma fmt_text_json (t : option string) :
  fmt_text t = match json_of_text t with JStr s => s | _ => "None" end.
Proof. by destruct t. Qed.

Lemma process_article_record (article : element) (d : dict) :
  process_article article = Some d -> search_record (JObj d).
Proof.
  unfold process_article.
  destruct (find ["MedlineCitation"] article) as [mc|]; [|discriminate].
  destruct (find ["Article"] mc) as [ad|]; [|discriminate].
  intros [= <-]. rewrite fmt_text_json.
  set (pmid := json_of_text (text_of (find ["PMID"] mc))).
  set (title := json_of_text (text_of (find ["ArticleTitle"] ad))).
  set (journal := json_of_text (text_of (find ["Journal"; "Title"] ad))).
  assert (nullable_str pmid /\ nullable_str title /\ nullable_str journal)
    as (Hp & Ht & Hj) by (repeat split; apply nullable_json_of_text).
  assert (Forall nullable_str
            match find ["PublicationTypeList"] ad with
            | Some pub_type_list =>
                (fun pub_type => json_of_text (el_text pub_type))
                  <$> findall ["PublicationType"] pub_type_list
            | None => []
            end) as Htypes.
  { destruct (find ["PublicationTypeList"] ad); [|constructor].
    apply Forall_fmap, Forall_true. intros x. apply nullable_json_of_text. }
  destruct (find ["Journal"; "JournalIssue"; "PubDate"] ad);
    destruct (find ["Abstract"] ad);
    by eexists pmid, title, journal, _, _, _.
Qed.

Lemma lift_raise_bind {A B} (e : exn) (k : A -> M B) (w : world) :
  bind (lift (@Raise A e)) k w = (Raise e, w).
Proof. reflexivity. Qed.

Section SearchFacts.
Variable fromstring : string -> option element.
Variable esearch : res json.
Variable efetch : res string.

(** The requests and the file of lines 36 to 86, by outcome. *)
Lemma fetch_root_spec (w w' : world) (r : res (option element)) :
  fetch_root fromstring esearch efetch w = (r, w') ->
  exists T,
    w' = World (heap w) (sent w) (trace w ++ T)
    /\ (T = [Fetched "esearch.fcgi"] /\ (r = Ok None \/ exists e, r = Raise e)
        \/ T = [Fetched "esearch.fcgi"; Fetched "efetch.fcgi"]
           /\ (exists e, efetch = Raise e /\ r = Raise e)
        \/ exists text,
             efetch = Ok text
             /\ T = [Fetched "esearch.fcgi"; Fetched "efetch.fcgi";
                     Written PubmedResponseXml (Text text)]
             /\ r = Ok (if blank text then None else fromstring text)).
Proof.
  unfold fetch_root. rewrite emit_bind.
  set (w1 := World (heap w) (sent w) (trace w ++ [Fetched "esearch.fcgi"])).
  assert (forall e, exists T,
             w1 = World (heap w) (sent w) (trace w ++ T)
             /\ (T = [Fetched "esearch.fcgi"]
                 /\ (@Raise (option element) e = Ok None \/ exists e', @Raise (option element) e = Raise e')
                 \/ T = [Fetched "esearch.fcgi"; Fetched "efetch.fcgi"]
                    /\ (exists e', efetch = Raise e' /\ @Raise (option element) e = Raise e')
                 \/ exists text,
                      efetch = Ok text
                      /\ T = [Fetched "esearch.fcgi"; Fetched "efetch.fcgi";
                              Written PubmedResponseXml (Text text)]
                      /\ @Raise (option element) e = Ok (if blank text then None else fromstring text)))
    as Hraise.
  { intros e. exists [Fetched "esearch.fcgi"]. split; [done|]. left. split; [done|].
    right. by exists e. }
  destruct esearch as [search_data|e];
    [rewrite lift_bind|rewrite lift_raise_bind; intros [= <- <-]; apply Hraise].
  destruct (py_getitem search_data "esearchresult") as [result|e];
    [rewrite lift_bind|rewrite lift_raise_bind; intros [= <- <-]; apply Hraise].
  destruct (py_getitem result "idlist") as [id_list|e];
    [rewrite lift_bind|rewrite lift_raise_bind; intros [= <- <-]; apply Hraise].
  destruct (negb (truthy id_list)).
  { intros [= <- <-]. exists [Fetched "esearch.fcgi"]. split; [done|]. left.
    split; [done|by left]. }
  destruct (py_len id_list) as [n|e];
    [rewrite lift_bind|rewrite lift_raise_bind; intros [= <- <-]; apply Hraise].
  destruct (joinable id_list) as [[]|e];
    [rewrite lift_bind|rewrite lift_raise_bind; intros [= <- <-]; apply Hraise].
  rewrite emit_bind. cbn [heap sent trace].
  destruct efetch as [text|e].
  - rewrite lift_bind, emit_bind. cbn [heap sent trace].
    rewrite py_strip_empty. intros H.
    exists [Fetched "esearch.fcgi"; Fetched "efetch.fcgi";
            Written PubmedResponseXml (Text text)].
    subst w1. cbn [heap sent trace] in H. rewrite <- !app_assoc in H. cbn [app] in H.
    split; [by destruct (blank text); injection H as <- <-|].
    right. right. exists text. split; [done|]. split; [done|].
    by destruct (blank text); injection H as <- <-.
  - rewrite lift_raise_bind. intros [= <- <-].
    exists [Fetched "esearch.fcgi"; Fetched "efetch.fcgi"].
    subst w1. cbn [heap sent trace]. rewrite <- !app_assoc. split; [done|]. right. left. split; [done|]. by exists e.
Qed.
End SearchFacts.



(** ** From the search to the analysis and to the CSV file *)










Lemma nullable_types (types : list json) :
  Forall nullable_str types ->
  (exists strs, types = JStr <$> strs) \/ JNull ∈ types.
Proof.
  induction 1 as [|v types [->|[s ->]] _ [[strs ->]|IH]].
  - left. by exists [].
  - right. by left.
  - right. by left.
  - left. by exists (s :: strs).
  - right. by right.
Qed.

Lemma res_map_as_str (strs : list string) : res_map as_str (JStr <$> strs) = Ok strs.
Proof. induction strs as [|s strs IH]; [done|]. cbn. by rewrite IH. Qed.

Lemma res_map_as_str_null (types : list json) :
  Forall nullable_str types -> JNull ∈ types -> res_map as_str types = Raise TypeError.
Proof.
  induction 1 as [|v types [->|[s ->]] _ IH]; intros Hin.
  - by apply elem_of_nil in Hin.
  - done.
  - apply elem_of_cons in Hin as [[=]|Hin]. cbn. by rewrite IH.
Qed.

(** X12: the CSV row of a record of the search.  The five plain
    cells and the abstract are the fields of the record as they are
    (a null identifier, title or journal stays null), the authors
    cell is always the empty string, since the search stores no
    authors, and the last cell joins the publication types.  The
    row fails, with TypeError, exactly when a publication type is
    null. *)
Theorem csv_row_of_search_record (article : element) (d : dict) :
  process_article article = Some d ->
  exists types,
    dget "publication_types" d = Some (JArr types)
    /\ ((exists strs,
           types = JStr <$> strs
           /\ csv_row (JObj d)
              = Ok (((fun k => default JNull (dget k d))
                       <$> ["pubmed_id"; "title"; "journal"; "publication_date"; "url"])
                    ++ [JStr EmptyString; default JNull (dget "abstract" d);
                        JStr (py_join "; " strs)]))
        \/ JNull ∈ types /\ csv_row (JObj d) = Raise TypeError).
Proof.
  intros (pmid & title & journal & date & abstract & types & [= ->] & _ & _ & _ & Ht)
    %process_article_record.
  exists types. split; [done|].
  destruct (nullable_types types Ht) as [[strs ->]|Hnull].
  - left. exists strs. split; [done|].
    unfold csv_row, join_field. cbn [dget_default dget String.eqb Ascii.eqb Bool.eqb].
    cbn [py_iter res_bind res_map py_join]. by rewrite res_map_as_str.
  - right. split; [done|].
    unfold csv_row, join_field. cbn [dget_default dget String.eqb Ascii.eqb Bool.eqb].
    cbn [py_iter res_bind res_map py_join]. by rewrite res_map_as_str_null.
Qed.

Lemma csv_row_of_search_record_witness :
  exists types,
    dget "publication_types"
      [("pubmed_id", JStr "40000001"); ("title", JNull); ("journal", JStr "Lancet");
       ("publication_date", JStr "2025 Apr"); ("abstract", JStr "BACKGROUND: Carriers differ. ");
       ("url", JStr "https://pubmed.ncbi.nlm.nih.gov/40000001/");
       ("publication_types", JArr [JStr "Journal Article"])]
    = Some (JArr types).
Proof.
  destruct (csv_row_of_search_record markup_title_article
              [("pubmed_id", JStr "40000001"); ("title", JNull); ("journal", JStr "Lancet");
               ("publication_date", JStr "2025 Apr");
               ("abstract", JStr "BACKGROUND: Carriers differ. ");
               ("url", JStr "https://pubmed.ncbi.nlm.nih.gov/40000001/");
               ("publication_types", JArr [JStr "Journal Article"])])
    as (types & Ht & _); [vm_compute; reflexivity|].
  by exists types.
Defined.

(** ** analyze_papers.py as a script: the file it analyses *)

Section NewestFacts.
Context {A : Type}.
Variable key : A -> Q.

Lemma head_insert_newer (x : A) (l : list A) :
  head (insert_newer key x l)
  = match head l with
    | Some h => if num_ltb (key x) (key h) then Some h else Some x
    | None => Some x
    end.
Proof. destruct l as [|y r]; [done|]. cbn. by destruct (num_ltb (key x) (key y)). Qed.

(** The first item of the sorted list is the first item of the list
    that has the greatest key. *)
Lemma head_sort_newest_first (l : list A) :
  l <> [] ->
  exists i f,
    head (sort_newest_first key l) = Some f
    /\ l !! i = Some f
    /\ (forall g, g ∈ l -> (key g <= key f)%Q)
    /\ (forall j g, (j < i)%nat -> l !! j = Some g -> (key g < key f)%Q).
Proof.
  induction l as [|x r IH]; [done|]. intros _.
  cbn [sort_newest_first foldr]. rewrite head_insert_newer.
  destruct r as [|y r'].
  { exists 0%nat, x. split; [done|]. split; [done|]. split.
    - intros g ->%list_elem_of_singleton. apply Qle_refl.
    - intros j g Hj. lia. }
  destruct IH as (i & h & Hh & Hi & Hmax & Hfirst); [done|].
  fold (sort_newest_first key (y :: r')). rewrite Hh.
  destruct (num_ltb_spec (key x) (key h)) as [Hlt|Hge].
  - exists (S i), h. split; [done|]. split; [done|]. split.
    + intros g [->|Hg]%elem_of_cons; [by apply Qlt_le_weak|by apply Hmax].
    + intros [|j] g Hj Hg; [by injection Hg as <-|].
      apply (Hfirst j); [lia|done].
  - exists 0%nat, x. split; [done|]. split; [done|]. split.
    + intros g [->|Hg]%elem_of_cons; [apply Qle_refl|].
      apply Qle_trans with (key h); [by apply Hmax|by apply Qnot_lt_le].
    + intros j g Hj. lia.
Qed.
End NewestFacts.

Lemma elem_of_List_filter {A} (f : A -> bool) (l : list A) (x : A) :
  x ∈ List.filter f l <-> x ∈ l /\ f x = true.
Proof. rewrite !list_elem_of_In. apply filter_In. Qed.

Lemma List_filter_lookup {A} (f : A -> bool) (l : list A) (i : nat) (x : A) :
  List.filter f l !! i = Some x ->
  exists i', l !! i' = Some x
             /\ forall j' g, (j' < i')%nat -> l !! j' = Some g -> f g = true ->
                  exists j, (j < i)%nat /\ List.filter f l !! j = Some g.
Proof.
  revert i. induction l as [|a r IH]; intros i; [done|]. cbn [List.filter].
  destruct (f a) eqn:Ea.
  - destruct i as [|k].
    + intros [= <-]. exists 0%nat. split; [done|]. intros; lia.
    + intros (k' & Hk' & Hbefore)%IH. exists (S k'). split; [done|].
      intros [|m] g Hm Hg Hfg.
      * injection Hg as <-. exists 0%nat. split; [lia|done].
      * destruct (Hbefore m g) as (j & Hj & Hjg); [lia|done..|].
        exists (S j). split; [lia|done].
  - intros (i' & Hi' & Hbefore)%IH. exists (S i'). split; [done|].
    intros [|m] g Hm Hg Hfg.
    + injection Hg as <-. congruence.
    + apply (Hbefore m g); [lia|done..].
Qed.

(** X13: run without [--file], the analysis script takes the file
    of the directory listing whose name starts with medical_papers_
    and ends with .json and whose modification time is the latest;
    among several with that time, the first in the listing.  It
    exits without analysing anything exactly when the listing has no
    such name. *)
Theorem most_recent_file_is_newest
    (listdir : list string) (getmtime : string -> Q) :
  match most_recent_file listdir getmtime with
  | None => forall g, g ∈ listdir -> is_papers_file g = false
  | Some f =>
      f ∈ listdir /\ is_papers_file f = true
      /\ (forall g, g ∈ listdir -> is_papers_file g = true ->
            (getmtime g <= getmtime f)%Q)
      /\ exists i, listdir !! i = Some f
           /\ forall j g, (j < i)%nat -> listdir !! j = Some g ->
                is_papers_file g = true -> (getmtime g < getmtime f)%Q
  end.
Proof.
  unfold most_recent_file.
  destruct (List.filter is_papers_file listdir) as [|f0 files] eqn:Efiles.
  { intros g Hg. destruct (is_papers_file g) eqn:Eg; [|done].
    assert (g ∈ List.filter is_papers_file listdir) as Hin
      by by apply elem_of_List_filter.
    rewrite Efiles in Hin. by apply elem_of_nil in Hin. }
  assert (f0 :: files <> []) as Hne by done.
  set (json_files := f0 :: files) in *. cbv beta iota zeta.
  destruct (head_sort_newest_first snd ((fun f => (f, getmtime f)) <$> json_files))
    as (i & [f t] & -> & Hi & Hmax & Hfirst).
  { by intros Hnil%fmap_nil_inv. }
  apply list_lookup_fmap_Some in Hi as (f' & [= -> ->] & Hi). rename f' into f.
  cbn [fmap option_fmap option_map fst].
  pose proof Hi as Hlook. rewrite <- Efiles in Hlook.
  apply List_filter_lookup in Hlook as (i' & Hi' & Hbefore).
  assert (f ∈ json_files) as Hin by by eapply list_elem_of_lookup_2.
  rewrite <- Efiles in Hin. apply elem_of_List_filter in Hin as [Hin Hf].
  split; [done|]. split; [done|]. split.
  - intros g Hg Hpg.
    apply (Hmax (g, getmtime g)), list_elem_of_fmap. exists g. split; [done|].
    rewrite <- Efiles. by apply elem_of_List_filter.
  - exists i'. split; [done|]. intros j' g Hj' Hg Hpg.
    destruct (Hbefore j' g Hj' Hg Hpg) as (j & Hj & Hjg). rewrite Efiles in Hjg.
    apply (Hfirst j (g, getmtime g) Hj). by rewrite list_lookup_fmap, Hjg.
Qed.

(** ** example.py: what the example runs *)

(** X14: the example never reaches the analysis.  Its search runs
    the imported function, so when the XML text parses the save step
    raises NameError, and otherwise the search returns the empty
    list and the example returns at line 29.  Whatever the
    configuration, the directory and the answers of PubMed: no
    request is sent to the model, no record is made, and the only
    file that can be written is the XML text. *)
Theorem example_never_analyses
    (json_loads : string -> option json) (py_str : json -> string)
    (strftime : string -> string) (net : nat -> attempt)
    (fromstring : string -> option element) (esearch : res json) (efetch : res string)
    (config_file : option string) (listdir : list string) (getmtime : string -> Q)
    (read_json : string -> res json) (w : world) :
  exists r T,
    example_main json_loads py_str strftime net fromstring esearch efetch config_file
      listdir getmtime read_json w
    = (r, World (heap w) (sent w) (trace w ++ T))
    /\ (T = []
        \/ T = [Fetched "esearch.fcgi"]
        \/ T = [Fetched "esearch.fcgi"; Fetched "efetch.fcgi"]
        \/ exists text,
             efetch = Ok text
             /\ T = [Fetched "esearch.fcgi"; Fetched "efetch.fcgi";
                     Written PubmedResponseXml (Text text)]
             /\ (blank text = false -> fromstring text <> None ->
                 r = Raise (NameError "group_name"))).
Proof.
  assert (w = World (heap w) (sent w) (trace w ++ [])) as Hw.
  { rewrite app_nil_r. by destruct w. }
  assert (forall e, exists r T,
             (@Raise unit e, w) = (r, World (heap w) (sent w) (trace w ++ T))
             /\ (T = []
                 \/ T = [Fetched "esearch.fcgi"]
                 \/ T = [Fetched "esearch.fcgi"; Fetched "efetch.fcgi"]
                 \/ exists text,
                      efetch = Ok text
                      /\ T = [Fetched "esearch.fcgi"; Fetched "efetch.fcgi";
                              Written PubmedResponseXml (Text text)]
                      /\ (blank text = false -> fromstring text <> None ->
                          r = Raise (NameError "group_name")))) as Hraise.
  { intros e. exists (Raise e), []. split; [by rewrite <- Hw|]. by left. }
  unfold example_main.
  destruct (load_journal_config json_loads config_file) as [config|e];
    [rewrite lift_bind|rewrite lift_raise_bind; apply Hraise].
  destruct (py_getitem config "journal_groups") as [journal_groups|e];
    [rewrite lift_bind|rewrite lift_raise_bind; apply Hraise].
  destruct (py_getitem journal_groups "major_medical") as [journals|e];
    [rewrite lift_bind|rewrite lift_raise_bind; apply Hraise].
  destruct (joined journals) as [names|e];
    [rewrite lift_bind|rewrite lift_raise_bind; apply Hraise].
  clear Hraise Hw.
  unfold search_medical_papers at 1.
  destruct (fetch_root fromstring esearch efetch w) as [root w1] eqn:Hroot.
  pose proof (fetch_root_spec _ _ _ _ _ _ Hroot) as (T & -> & Hcase).
  unfold bind at 1 2. rewrite Hroot.
  destruct root as [[root|]|e].
  - rewrite save_papers_unnamed. exists (Raise (NameError "group_name")), T.
    split; [done|].
    destruct Hcase as [[-> _]|[[-> _]|(text & Hf & -> & _)]]; [tauto..|].
    right. right. right. exists text. done.
  - exists (Ok tt), T. split; [done|].
    destruct Hcase as [[-> _]|[[-> _]|(text & Hf & -> & Hr)]]; [tauto..|].
    right. right. right. exists text. split; [done|]. split; [done|].
    intros Hb Hp. rewrite Hb in Hr. injection Hr as Hr. by destruct Hp.
  - exists (Raise e), T. split; [done|].
    destruct Hcase as [[-> _]|[[-> _]|(text & Hf & -> & [=])]]; tauto.
Qed.

(** ** convert_to_csv.py as a script: the name of the CSV file *)

Lemma replace_go_absent (old new s : string) :
  str_contains old s = false -> replace_go old new 0 s = s.
Proof.
  induction s as [|a s IH]; [done|]. cbn [str_contains replace_go].
  intros [-> Hs]%orb_false_elim. by rewrite IH.
Qed.

(** No occurrence of .json starts in a text and ends in a .json
    put after it, unless the text has one itself. *)
Lemma prefix_json_app (t : string) :
  t <> EmptyString -> String.prefix ".json" t = false ->
  String.prefix ".json" (t +:+ ".json") = false.
Proof.
  destruct t as [|c1 [|c2 [|c3 [|c4 [|c5 t]]]]]; [done|..]; intros _;
    push_append; rewrite ?prefix_cons;
    repeat match goal with
           | |- context [Ascii.eqb ?a ?b] =>
               destruct (Ascii.eqb_spec a b) as [<-|?]; try done
           end.
  all: try (by destruct t).
Qed.

Lemma replace_go_stem (stem : string) :
  str_contains ".json" stem = false ->
  replace_go ".json" ".csv" 0 (stem +:+ ".json") = stem +:+ ".csv".
Proof.
  induction stem as [|a stem IH]; [done|]. cbn [str_contains].
  intros [Hp Hs]%orb_false_elim.
  pose proof (prefix_json_app (String a stem)) as Hq. rewrite ?append_cons, ?append_nil in Hq.
  push_append. cbn [replace_go]. rewrite Hq by done. by rewrite IH.
Qed.

Lemma convert_json_to_csv_writes (loaded : json) (csv_file : string) (w : world) :
  truthy loaded = true ->
  exists r rows,
    convert_json_to_csv loaded csv_file w
    = (r, World (heap w ++ default [] (match py_iter loaded with Ok l => Some l | _ => None end))
            (sent w)
            (trace w ++ [Written (CsvFile csv_file) (Rows ((JStr <$> CSV_FIELDS) :: rows))])).
Proof.
  intros Ht. destruct (py_iter loaded) as [items|e] eqn:Ei.
  - rewrite (convert_json_to_csv_run loaded items csv_file w Ht Ei). by eexists _, _.
  - unfold convert_json_to_csv. rewrite Ht, Ei. cbn [negb]. rewrite emit_bind.
    exists (Raise e), []. cbn [default]. by rewrite app_nil_r.
Qed.

(** X15: the script writes its CSV file, when the JSON file holds
    something, under the name of the JSON file with every .json in it
    replaced by .csv.  For a name that ends in .json and has no other
    .json in it that is the name with the ending changed; for a name
    with no .json in it, it is the name itself: the script then
    writes the CSV text over the JSON file it has read. *)
Theorem convert_main_file_name
    (read_json : string -> res json) (prog f : string) (rest : list string)
    (loaded : json) (w : world) :
  read_json f = Ok loaded ->
  truthy loaded = true ->
  (exists r rows w',
      convert_main read_json (prog :: f :: rest) w = (r, w')
      /\ trace w'
         = trace w ++ [Written (CsvFile (py_replace ".json" ".csv" f))
                         (Rows ((JStr <$> CSV_FIELDS) :: rows))])
  /\ (str_contains ".json" f = false -> py_replace ".json" ".csv" f = f)
  /\ (forall stem, f = stem +:+ ".json" -> str_contains ".json" stem = false ->
        py_replace ".json" ".csv" f = stem +:+ ".csv").
Proof.
  intros Hread Ht. split; [|split].
  - unfold convert_main. rewrite Hread, lift_bind.
    destruct (convert_json_to_csv_writes loaded (py_replace ".json" ".csv" f) w Ht)
      as (r & rows & ->).
    by eexists _, _, _.
  - apply replace_go_absent.
  - intros stem ->. apply replace_go_stem.
Qed.

Lemma convert_main_file_name_witness :
  (exists r rows w',
      convert_main (fun _ => Ok (JArr [sample_paper])) ["convert_to_csv.py"; "papers.txt"]
        empty_world = (r, w')
      /\ trace w'
         = trace empty_world
           ++ [Written (CsvFile (py_replace ".json" ".csv" "papers.txt"))
                 (Rows ((JStr <$> CSV_FIELDS) :: rows))])
  /\ (str_contains ".json" "papers.txt" = false
      -> py_replace ".json" ".csv" "papers.txt" = "papers.txt")
  /\ (forall stem, "papers.txt" = stem +:+ ".json" -> str_contains ".json" stem = false ->
        py_replace ".json" ".csv" "papers.txt" = stem +:+ ".csv").
Proof.
  apply (convert_main_file_name (fun _ => Ok (JArr [sample_paper]))
           "convert_to_csv.py" "papers.txt" [] (JArr [sample_paper]) empty_world);
    reflexivity.
Defined.

(** ** analyze_papers.py: what is added to an answer *)

Lemma dget_ensure (k k' : string) (v : json) (d : dict) :
  dget k (ensure k' v d)
  = match dget k d with
    | Some x => Some x
    | None => if String.eqb k k' then Some v else None
    end.
Proof.
  destruct (String.eqb_spec k k') as [->|Hne].
  - rewrite dget_ensure_eq. unfold dget_default. by destruct (dget k' d).
  - rewrite dget_ensure_ne by done. by destruct (dget k d).
Qed.

Lemma dget_ensure_fields (k : string) (d : dict) :
  dget k (ensure_fields d)
  = match dget k d with Some x => Some x | None => dget k DEFAULTS end.
Proof.
  unfold ensure_fields. rewrite !dget_ensure.
  destruct (dget k d); [done|]. cbn [dget DEFAULTS].
  repeat match goal with
         | |- context [String.eqb k ?s] => destruct (String.eqb_spec k s) as [->|?]
         end; done.
Qed.

(** X16: what lines 178 to 198 do to the answer of the model, for a
    paper that has the five fields of the article data.  Under paper
    the record gets these five fields, whatever the answer had under
    that key; every other key of the answer keeps its value, inside
    or outside the six fields of the judgment; and the only keys
    added are those of the six fields that the answer lacks, with
    their default values. *)
Theorem annotate_keeps_answer (paper : json) (answer : dict) :
  article_like paper ->
  exists info record,
    paper_info paper = Ok (JObj info)
    /\ annotate paper (JObj answer) = JObj record
    /\ dget "paper" record = Some (JObj info)
    /\ (forall k v, k <> "paper" -> dget k answer = Some v -> dget k record = Some v)
    /\ (forall k, k <> "paper" -> dget k answer = None -> dget k record = dget k DEFAULTS).
Proof.
  intros Hpaper.
  destruct (paper_info_of_article paper Hpaper) as (info & Hinfo & _).
  exists info, (ensure_fields (dset "paper" (JObj info) answer)).
  split; [done|]. split; [by apply annotate_dict|]. split; [apply ensure_fields_paper|].
  split.
  - intros k v Hk Hv. by rewrite dget_ensure_fields, dget_dset_ne, Hv.
  - intros k Hk Hv. by rewrite dget_ensure_fields, dget_dset_ne, Hv.
Qed.

Lemma annotate_keeps_answer_witness :
  exists info record,
    paper_info sample_paper = Ok (JObj info)
    /\ annotate sample_paper
         (JObj [("impact_score", JInt 11); ("paper", JStr "mine"); ("note", JStr "x")])
       = JObj record
    /\ dget "paper" record = Some (JObj info)
    /\ (forall k v, k <> "paper" ->
          dget k [("impact_score", JInt 11); ("paper", JStr "mine"); ("note", JStr "x")]
          = Some v -> dget k record = Some v)
    /\ (forall k, k <> "paper" ->
          dget k [("impact_score", JInt 11); ("paper", JStr "mine"); ("note", JStr "x")]
          = None -> dget k record = dget k DEFAULTS).
Proof.
  apply (annotate_keeps_answer sample_paper
           [("impact_score", JInt 11); ("paper", JStr "mine"); ("note", JStr "x")]).
  eexists. split; [reflexivity|].
  repeat (apply Forall_cons_2; [reflexivity|]). apply Forall_nil_2.
Defined.

(** ** analyze_papers.py: a run in which every request fails *)

Lemma ret_bind {A B} (a : A) (k : A -> M B) (w : world) : bind (ret a) k w = k a w.
Proof. reflexivity. Qed.

Section Outage.
Variable json_loads : string -> option json.
Variable net : nat -> attempt.
Hypothesis outage : forall k, failed (net k) = true.

Lemma request_loop_outage (paper : json) (w : world) :
  exists response,
    request_loop net max_retries paper 0 false None w
    = (Ok (false, response),
       World (heap w) (sent w + 3) (trace w ++ posts paper 0 3)).
Proof.
  destruct (request_loop_spec net max_retries paper 0 None w)
    as (n & s & r & w' & Hrun & -> & Hle & Hpre & Hs & Hf); [lia|lia|].
  destruct s.
  - destruct Hs as (m & body & _ & Hnet & _); [done|].
    pose proof (outage (sent w + m)%nat) as Hfail. rewrite Hnet in Hfail. done.
  - destruct Hf as [Hn _]; [done|]. unfold max_retries in Hn.
    assert (n = 3%nat) as -> by lia. by exists r.
Qed.

Lemma classify_paper_outage (results : list loc) (paper : json) (w : world) :
  promptable paper ->
  classify_paper json_loads net results paper w
  = (Ok results, World (heap w) (sent w + 3) (trace w ++ posts paper 0 3)).
Proof.
  intros (d & title & -> & Ht & Hs & [j Hj]%dmem_dget & [pd Hpd]%dmem_dget
          & [a Ha]%dmem_dget).
  unfold classify_paper. cbn [py_getitem].
  rewrite Ht. cbn [of_option]. rewrite lift_bind, Hs, lift_bind.
  rewrite Hj, Hpd, Ha. cbn [of_option]. rewrite !lift_bind.
  destruct (request_loop_outage (JObj d) w) as [response Hrun].
  by rewrite (bind_ok _ _ _ _ _ Hrun).
Qed.

Lemma classify_loop_outage (papers : list json) (results : list loc) (w : world) :
  Forall promptable papers ->
  mfold (classify_paper json_loads net) results papers w
  = (Ok results,
     World (heap w) (sent w + 3 * length papers)
       (trace w ++ loop_trace ((fun p => (p, 3%nat)) <$> papers))).
Proof.
  intros Hp. revert w. induction Hp as [|paper papers Hpaper _ IH]; intros w.
  - cbn. rewrite app_nil_r, Nat.add_0_r. by destruct w.
  - cbn [mfold]. rewrite (bind_ok _ _ _ _ _ (classify_paper_outage results paper w Hpaper)).
    rewrite IH. cbn [heap sent trace fmap list_fmap length]. rewrite loop_trace_cons.
    cbn [fst snd]. f_equal. f_equal; [lia|by rewrite <- app_assoc].
Qed.
End Outage.

(** X17: when every request fails (a time-out, a connection error
    or a status other than 200, at each attempt) a run on articles
    still ends normally.  Each selected paper costs exactly three
    requests, no record is made, the JSON results are written as the
    empty list, no Markdown report is written and the empty list is
    returned. *)
Theorem analyze_outage
    (json_loads : string -> option json) (py_str : json -> string)
    (strftime : string -> string) (net : nat -> attempt)
    (items : list json) (max_papers : option Z) (w : world) :
  Forall article items ->
  (forall k, failed (net k) = true) ->
  exists o,
    select_papers (JArr items) max_papers = Ok o
    /\ analyze_papers_with_gemini json_loads py_str strftime net (JArr items) max_papers w
       = (Ok [],
          match o with
          | None => w
          | Some sel =>
              World (heap w) (sent w + 3 * length sel)
                (trace w ++ loop_trace ((fun p => (p, 3%nat)) <$> sel)
                   ++ [Written AnalysisJson (Records [])])
          end).
Proof.
  intros Hitems Hfail.
  destruct (select_papers_ok items max_papers Hitems) as (o & Hsel & Hart).
  exists o. split; [done|].
  unfold analyze_papers_with_gemini. rewrite Hsel, lift_bind.
  destruct o as [sel|]; [|done].
  assert (Forall promptable sel) as Hp
    by (eapply Forall_impl; [exact (Hart sel eq_refl)|apply article_promptable]).
  rewrite (bind_ok _ _ _ _ _ (classify_loop_outage json_loads net Hfail sel [] w Hp)).
  unfold report. cbn [mmap]. rewrite ret_bind, emit_bind.
  cbn [mfilter heap sent trace]. rewrite ret_bind.
  unfold ret. by rewrite <- app_assoc.
Qed.

Lemma analyze_outage_witness :
  exists o,
    select_papers (JArr [sample_paper; blank_paper; second_paper]) None = Ok o
    /\ analyze_papers_with_gemini loads_sample str_of_scalar sample_date
         (fun _ => Response 503 (Raise JSONDecodeError))
         (JArr [sample_paper; blank_paper; second_paper]) None empty_world
       = (Ok [],
          match o with
          | None => empty_world
          | Some sel =>
              World (heap empty_world) (sent empty_world + 3 * length sel)
                (trace empty_world ++ loop_trace ((fun p => (p, 3%nat)) <$> sel)
                   ++ [Written AnalysisJson (Records [])])
          end).
Proof.
  apply (analyze_outage loads_sample str_of_scalar sample_date
           (fun _ => Response 503 (Raise JSONDecodeError))
           [sample_paper; blank_paper; second_paper] None empty_world).
  - repeat (apply Forall_cons_2; [eexists; split; reflexivity|]). apply Forall_nil_2.
  - reflexivity.
Defined.

(** ** analyze_papers.py: the layout of the Markdown report *)

Lemma write_each_lookup {B} (f : nat -> json -> res B) (i : nat) (papers : list json)
    (written : list B) :
  write_each f i papers = (written, None) ->
  length written = length papers
  /\ forall k p, papers !! k = Some p ->
       exists b, f (i + k)%nat p = Ok b /\ written !! k = Some b.
Proof.
  revert i written. induction papers as [|q papers IH]; intros i written.
  - intros [= <-]. split; [done|]. intros k p Hk. by rewrite lookup_nil in Hk.
  - cbn [write_each]. destruct (f i q) as [b|e] eqn:Eb; [|discriminate].
    destruct (write_each f (S i) papers) as [bs e] eqn:Ebs.
    intros [= <- ->]. destruct (IH _ _ Ebs) as [Hlen Hk].
    split; [cbn; by rewrite Hlen|].
    intros [|k] p Hp.
    + injection Hp as <-. exists b. by rewrite Nat.add_0_r.
    + destruct (Hk k p Hp) as (b' & Hb' & Hw). exists b'.
      by rewrite Nat.add_succ_r.
Qed.

(** X18: the layout of a Markdown report that was written to its
    end.  After the heading come one line of contents for each paper
    shown, the heading of the reviews and one entry for each paper
    shown, both in the order of the list and numbered from 1; the
    link of the k-th line of contents names the anchor that opens
    the k-th entry. *)
Theorem markdown_report_layout (py_str : json -> string) (strftime : string -> string)
    (shown : list json) (chunks : list string) :
  markdown_report py_str strftime shown = (chunks, None) ->
  exists toc entries,
    chunks = md_header strftime ++ toc
             ++ [nl; "## Detailed Paper Reviews" +:+ nl +:+ nl] ++ concat entries
    /\ length toc = length shown
    /\ length entries = length shown
    /\ forall k p, shown !! k = Some p ->
         (exists title tags,
             toc !! k = Some (pretty (S k) +:+ ". [" +:+ py_str title +:+ "](#"
                              +:+ pretty (S k) +:+ ") " +:+ tags +:+ nl))
         /\ exists entry,
              entries !! k = Some entry
              /\ detail_chunks py_str (S k) p = Ok entry
              /\ head entry = Some ("<a id='" +:+ pretty (S k) +:+ "'></a>" +:+ nl).
Proof.
  unfold markdown_report.
  destruct (write_each (toc_line py_str) 1 shown) as [toc [e|]] eqn:Etoc; [discriminate|].
  destruct (write_each (detail_chunks py_str) 1 shown) as [entries e] eqn:Eent.
  intros [= <- ->]. exists toc, entries.
  apply write_each_lookup in Etoc as [Hlt Htoc].
  apply write_each_lookup in Eent as [Hle Hent].
  split; [done|]. split; [done|]. split; [done|].
  intros k p Hp. split.
  - destruct (Htoc k p Hp) as (t & Ht & ->). cbn [Nat.add] in Ht.
    unfold toc_line in Ht. destruct p as [| | | | | |d]; try discriminate.
    destruct (py_getitem (JObj d) "paper") as [info|]; [|discriminate].
    cbn [res_bind] in Ht.
    destruct (py_getitem info "title") as [title|]; [|discriminate].
    cbn [res_bind] in Ht.
    destruct (py_iter (dget_default "aspects" (JArr []) d)) as [aspects|];
      [|discriminate].
    injection Ht as <-. by eexists _, _.
  - destruct (Hent k p Hp) as (entry & He & Hk). cbn [Nat.add] in He.
    exists entry. split; [done|]. split; [done|].
    unfold detail_chunks in He. destruct p as [| | | | | |d]; try discriminate.
    destruct (py_getitem (JObj d) "paper") as [info|]; [|discriminate].
    cbn [res_bind] in He.
    destruct (py_getitem info "title") as [title|]; [|discriminate].
    destruct (py_getitem info "journal") as [journal|]; [|discriminate].
    destruct (py_getitem info "publication_date") as [pub_date|]; [|discriminate].
    destruct (py_getitem info "url") as [url|]; [|discriminate].
    cbn [res_bind] in He.
    destruct (py_iter (dget_default "aspects" (JArr []) d)) as [aspects|];
      [|discriminate].
    by injection He as <-.
Qed.

Lemma markdown_report_layout_witness :
  exists toc entries,
    fst (markdown_report str_of_scalar sample_date [annotate sample_paper judged_value])
    = md_header sample_date ++ toc
      ++ [nl; "## Detailed Paper Reviews" +:+ nl +:+ nl] ++ concat entries
    /\ length toc = length [annotate sample_paper judged_value]
    /\ length entries = length [annotate sample_paper judged_value]
    /\ forall k p, [annotate sample_paper judged_value] !! k = Some p ->
         (exists title tags,
             toc !! k = Some (pretty (S k) +:+ ". [" +:+ str_of_scalar title +:+ "](#"
                              +:+ pretty (S k) +:+ ") " +:+ tags +:+ nl))
         /\ exists entry,
              entries !! k = Some entry
              /\ detail_chunks str_of_scalar (S k) p = Ok entry
              /\ head entry = Some ("<a id='" +:+ pretty (S k) +:+ "'></a>" +:+ nl).
Proof.
  apply (markdown_report_layout str_of_scalar sample_date
           [annotate sample_paper judged_value]).
  vm_compute. reflexivity.
Defined.

(** ** convert_to_csv.py: the rows written when a paper fails *)



